(** * Prompt Generator engine: a shallow embedding of [src/backend/main.py]

    The development follows the Python module top to bottom:

    - [PyStr]: the [str] methods the engine calls ([lower], [capitalize],
      [strip], [join], the [in] operator);
    - [Effects] and [PyRandom]: the [random] module as a state-and-error
      monad over an explicit tape of draws ([random], [uniform], [choice],
      [sample]);
    - the enumerations, [PromptTemplate], the catalog built by
      [_init_templates], [generate] with its three formatters, and
      [optimize] with its classifier, intent extraction and expansions;
    - the request and response models and the four endpoints.

    Conventions.  A Python [str] is a Rocq [string] whose characters are the
    code points below 256; every literal of the source is ASCII.  A Python
    [int] is a [Z].  A Python [float] is the rational it denotes and float
    arithmetic is exact rational arithmetic ([Q]); [binary64_counts] checks,
    with the IEEE 754 operations of [SpecFloat], that the rounded products
    of the catalog sizes with the ratios truncate to the same integers.
    The number of modifiers depends on a draw: where the exact product lies
    just under an integer, binary64 may round it up to that integer and the
    source then samples one modifier more than [num_modifiers] says; both
    numbers lie between 1 and the number of modifiers, and the statements
    below use no more than that. *)

From Stdlib Require Import ZArith NArith QArith Qround Ascii String List Lia Lqa.
From Stdlib Require Import Floats.SpecFloat.
From stdpp Require Import base option list countable gmap strings.

Local Open Scope Z_scope.

(** ** Python strings *)

Module PyStr.

Definition is_empty (s : string) : bool :=
  match s with EmptyString => true | String _ _ => false end.

(** [c.lower()] for one code point below 256: A..Z and the Latin-1
    capitals U+00C0..U+00DE (U+00D7, the multiplication sign, apart) move
    up by 32; everything else is unchanged. *)
Definition lower_char (c : ascii) : ascii :=
  let n := N_of_ascii c in
  if ((65 <=? n) && (n <=? 90) ||
      (192 <=? n) && (n <=? 222) && negb (n =? 215))%N
  then ascii_of_N (n + 32) else c.

(** [c.upper()]: a..z and U+00E0..U+00FE (U+00F7, the division sign,
    apart) move down by 32.  The three code points below 256 whose
    capital lies outside that range (U+00B5, U+00DF, U+00FF) are kept
    as they are; the engine only capitalises catalog modifiers, which
    are ASCII. *)
Definition upper_char (c : ascii) : ascii :=
  let n := N_of_ascii c in
  if ((97 <=? n) && (n <=? 122) ||
      (224 <=? n) && (n <=? 254) && negb (n =? 247))%N
  then ascii_of_N (n - 32) else c.

Fixpoint lower (s : string) : string :=
  match s with
  | EmptyString => EmptyString
  | String c t => String (lower_char c) (lower t)
  end.

(** [s.capitalize()]: first character upper-cased, the rest lower-cased. *)
Definition capitalize (s : string) : string :=
  match s with
  | EmptyString => EmptyString
  | String c t => String (upper_char c) (lower t)
  end.

(** [c.isspace()] below 256: TAB..CR, FS..US, space, NEL and NBSP. *)
Definition is_space (c : ascii) : bool :=
  let n := N_of_ascii c in
  ((9 <=? n) && (n <=? 13) || (28 <=? n) && (n <=? 32) ||
   (n =? 133) || (n =? 160))%N.

Fixpoint lstrip (s : string) : string :=
  match s with
  | EmptyString => EmptyString
  | String c t => if is_space c then lstrip t else s
  end.

Fixpoint rstrip (s : string) : string :=
  match s with
  | EmptyString => EmptyString
  | String c t =>
      let t' := rstrip t in
      if is_space c && is_empty t' then EmptyString else String c t'
  end.

Definition strip (s : string) : string := rstrip (lstrip s).

(** [sep.join(l)] *)
Fixpoint join (sep : string) (l : list string) : string :=
  match l with
  | [] => EmptyString
  | [x] => x
  | x :: xs => x +:+ sep +:+ join sep xs
  end.

(** [s.startswith(p)] *)
Fixpoint startswith (p s : string) : bool :=
  match p, s with
  | EmptyString, _ => true
  | String a p', String b s' => if Ascii.eqb a b then startswith p' s' else false
  | String _ _, EmptyString => false
  end.

(** [needle in hay] *)
Fixpoint contains (needle hay : string) : bool :=
  startswith needle hay ||
  match hay with
  | EmptyString => false
  | String _ t => contains needle t
  end.

(** [any(kw in s for kw in kws)] *)
Definition any_in (kws : list string) (s : string) : bool :=
  existsb (fun kw => contains kw s) kws.

(** [needle] occurs in [hay] as a contiguous block. *)
Definition occurs (needle hay : string) : Prop :=
  exists pre suf, hay = pre +:+ needle +:+ suf.

End PyStr.

Notation "x 'in_str' s" := (PyStr.contains x s) (at level 65, no associativity).

(** ** Enumerations *)

Inductive PromptTypeEnum := IMAGE | WORKFLOW | AUTOMATION | CODE | ANALYSIS.

Inductive SpecificityLevel := LOW | MEDIUM | HIGH | EXTREME.

(** The [.value] of a member. *)
Definition PromptTypeEnum_value (t : PromptTypeEnum) : string :=
  match t with
  | IMAGE => "image"
  | WORKFLOW => "workflow"
  | AUTOMATION => "automation"
  | CODE => "code"
  | ANALYSIS => "analysis"
  end.

Definition SpecificityLevel_value (s : SpecificityLevel) : string :=
  match s with
  | LOW => "low"
  | MEDIUM => "medium"
  | HIGH => "high"
  | EXTREME => "extreme"
  end.

(** ** Effects: the random source and exceptions

    The generator is the only effectful part of the engine: it reads the
    process-wide random source and may raise.  Both effects are explicit.
    The random source is a tape of naturals with a cursor, and every
    primitive of [random] reads one cell.  An exception ends the
    computation: nothing is returned, not even a partial list. *)

(** The exceptions the engine can meet: the [ValueError] of [generate]
    ("No templates for ..."), the [ValueError] of [random.sample]
    ("Sample larger than population or is negative") and the [IndexError]
    of [random.choice] on an empty sequence. *)
Inductive exn :=
| NoTemplates (prompt_type : PromptTypeEnum)
| SampleLargerThanPopulation
| ChoiceFromEmpty.

Inductive result (A : Type) :=
| Ok (a : A)
| Raise (e : exn).
Arguments Ok {A} a.
Arguments Raise {A} e.

Record Rng := mkRng { tape : nat -> N; cursor : nat }.

Definition M (A : Type) : Type := Rng -> result (A * Rng).

Module Effects.

Definition ret {A} (a : A) : M A := fun g => Ok (a, g).

Definition bind {A B} (m : M A) (k : A -> M B) : M B :=
  fun g => match m g with
           | Ok (a, g') => k a g'
           | Raise e => Raise e
           end.

Definition raise {A} (e : exn) : M A := fun _ => Raise e.

(** The cell under the cursor; the cursor moves on. *)
Definition next_draw : M N :=
  fun g => Ok (tape g (cursor g), mkRng (tape g) (S (cursor g))).

(** The value returned by a computation, the final state dropped. *)
Definition run {A} (m : M A) (g : Rng) : result A :=
  match m g with Ok (a, _) => Ok a | Raise e => Raise e end.

End Effects.
Import Effects.

Notation "'do' x <- m ; k" := (bind m (fun x => k))
  (at level 10, x name, m at level 100, k at level 200,
   format "'[v' 'do'  x  <-  m ; '/' k ']'").
Notation "'do' ' p <- m ; k" := (bind m (fun x => match x with p => k end))
  (at level 10, p pattern, m at level 100, k at level 200).

(** ** The [random] module *)

Module PyRandom.

(** [random._randbelow(n)], an index below [n]: the cell read, modulo [n].
    It is called with [n > 0] only. *)
Definition randbelow (n : nat) : M nat :=
  do k <- next_draw; ret (N.to_nat k mod n)%nat.

(** [random.random()]: a multiple of 2^-53 in [0, 1). *)
Definition random : M Q :=
  do k <- next_draw; ret (Z.of_N (k mod 2 ^ 53) # 2 ^ 53).

(** [random.uniform(a, b)] is [a + (b - a) * random()]. *)
Definition uniform (a b : Q) : M Q :=
  do r <- random; ret (a + (b - a) * r)%Q.

(** [random.choice(seq)]: [IndexError] on an empty sequence. *)
Definition choice {A} (seq : list A) : M A :=
  match seq with
  | [] => raise ChoiceFromEmpty
  | x :: _ => do j <- randbelow (length seq); ret (nth j seq x)
  end.

(** The selection loop of [random.sample] over its pool, the branch CPython
    takes for a population of at most 21 entries, as all of the catalog's
    are: [pool] is the live part of the pool, [n - i] cells at step [i];
    cell [j] is taken and refilled with the last live cell.  [sample] calls
    the loop with [k] at most the size of the pool, so the pool is not
    empty while entries are still owed. *)
Fixpoint sample_pool {A} (k : nat) (pool : list A) : M (list A) :=
  match k with
  | O => ret []
  | S k' =>
      match pool with
      | [] => raise SampleLargerThanPopulation
      | x :: _ =>
          do j <- randbelow (length pool);
          let n' := pred (length pool) in
          do rest <- sample_pool k' (take n' (<[j := nth n' pool x]> pool));
          ret (nth j pool x :: rest)
      end
  end.

(** [random.sample(population, k)]: [ValueError] unless [0 <= k <= n]. *)
Definition sample {A} (population : list A) (k : Z) : M (list A) :=
  if (0 <=? k) && (k <=? Z.of_nat (length population))
  then sample_pool (Z.to_nat k) population
  else raise SampleLargerThanPopulation.

End PyRandom.
Import PyRandom.

(** ** The template record and the engine *)

#[global] Instance PromptTypeEnum_eq_dec : EqDecision PromptTypeEnum.
Proof. solve_decision. Defined.

#[global] Instance PromptTypeEnum_countable : Countable PromptTypeEnum.
Proof.
  refine (inj_countable'
    (fun t => match t with
              | IMAGE => 0 | WORKFLOW => 1 | AUTOMATION => 2
              | CODE => 3 | ANALYSIS => 4 end%nat)
    (fun n => match n with
              | 0 => IMAGE | 1 => WORKFLOW | 2 => AUTOMATION
              | 3 => CODE | _ => ANALYSIS end%nat) _).
  intros []; reflexivity.
Defined.

Record PromptTemplate := mkPromptTemplate {
  type : string;
  base_structure : string;
  modifiers : list string;
  constraints : list string;
  quality_tokens : list string
}.

(** The engine object: its only attribute is the dictionary of templates. *)
Record PromptGeneratorEngine := mkEngine {
  templates : gmap PromptTypeEnum (list PromptTemplate)
}.

(** ** The catalog: [_init_templates] *)

Definition image_template : PromptTemplate := {|
  type := "image";
  base_structure := "{subject} {action} {style} {technical}";
  modifiers := [
    "photorealistic"; "artistic"; "abstract"; "hyper-detailed";
    "minimalist"; "dramatic"; "cinematic"; "editorial";
    "vibrant"; "muted tones"; "high contrast"; "soft lighting" ];
  constraints := [
    "maintain exact facial features and proportions";
    "preserve original identity and likeness";
    "keep consistent lighting and shadows";
    "match existing color palette and temperature";
    "ensure natural blending and transitions";
    "avoid distortion or warping";
    "maintain background integrity";
    "preserve skin texture and tone" ];
  quality_tokens := [
    "8k resolution"; "professional photography"; "studio lighting";
    "bokeh"; "shallow depth of field"; "golden hour";
    "sharp focus"; "HDR"; "award-winning"; "magazine quality" ]
|}.

Definition workflow_template : PromptTemplate := {|
  type := "workflow";
  base_structure := "Create a {workflow_type} that {action} with {requirements}";
  modifiers := [
    "automated pipeline"; "approval process"; "data transformation";
    "notification system"; "scheduled task"; "event-driven workflow";
    "multi-stage process"; "conditional routing"; "parallel execution" ];
  constraints := [
    "error handling for each step";
    "rollback mechanism on failure";
    "logging and audit trail";
    "idempotent operations";
    "timeout handling";
    "retry logic with exponential backoff";
    "state persistence";
    "concurrency control" ];
  quality_tokens := [
    "production-ready"; "scalable"; "maintainable";
    "well-documented"; "testable"; "monitored"; "resilient" ]
|}.

Definition automation_template : PromptTemplate := {|
  type := "automation";
  base_structure := "Automate {task} that {condition} and {output}";
  modifiers := [
    "triggers when"; "runs daily at"; "monitors continuously";
    "responds to events"; "processes batch"; "streams data";
    "executes on schedule"; "reacts to changes" ];
  constraints := [
    "handle edge cases and null values";
    "validate input data";
    "graceful degradation";
    "rate limiting and throttling";
    "concurrent execution safety";
    "data consistency guarantees";
    "transaction management";
    "resource cleanup" ];
  quality_tokens := [
    "reliable"; "fault-tolerant"; "observable";
    "recoverable"; "performant"; "secure" ]
|}.

Definition code_template : PromptTemplate := {|
  type := "code";
  base_structure := "Write {language} code that {functionality} with {requirements}";
  modifiers := [
    "class implementation"; "API endpoint"; "data processor";
    "utility function"; "CLI tool"; "background service";
    "database layer"; "service integration"; "message handler" ];
  constraints := [
    "type hints/annotations";
    "error handling with specific exceptions";
    "input validation";
    "unit tests included";
    "docstrings/comments for complex logic";
    "no hardcoded values";
    "configuration externalized";
    "logging instrumentation" ];
  quality_tokens := [
    "production-grade"; "efficient"; "readable";
    "maintainable"; "well-tested"; "documented"; "SOLID principles" ]
|}.

Definition _init_templates : gmap PromptTypeEnum (list PromptTemplate) :=
  list_to_map [
    (IMAGE, [image_template]);
    (WORKFLOW, [workflow_template]);
    (AUTOMATION, [automation_template]);
    (CODE, [code_template]) ].

(** [engine = PromptGeneratorEngine()] *)
Definition engine : PromptGeneratorEngine := mkEngine _init_templates.

(** [self.templates.get(prompt_type, [])] *)
Definition templates_get (self : PromptGeneratorEngine) (prompt_type : PromptTypeEnum)
  : list PromptTemplate :=
  default [] (templates self !! prompt_type).

(** ** The generator *)

(** Truth value of a list: [if l:] holds when [l] is not empty. *)
Definition truthy {A} (l : list A) : bool :=
  match l with [] => false | _ :: _ => true end.

(** [len(l)] *)
Definition len {A} (l : list A) : Z := Z.of_nat (length l).

(** [int(x)] truncates towards zero. *)
Definition py_int (x : Q) : Z := Z.quot (Qnum x) (Zpos (Qden x)).

(** [x < y] on floats *)
Definition float_lt (x y : Q) : bool := (Qnum x * QDen y <? Qnum y * QDen x).

(** [for _ in range(n): xs.append(body())] *)
Fixpoint for_range {A} (n : nat) (body : M A) : M (list A) :=
  match n with
  | O => ret []
  | S n' => do x <- body; do xs <- for_range n' body; ret (x :: xs)
  end.

Definition specificity_levels (s : SpecificityLevel) : Q :=
  match s with
  | LOW => 0.2
  | MEDIUM => 0.5
  | HIGH => 0.8
  | EXTREME => 1.0
  end%Q.

Definition subjects : list string := [
  "portrait"; "landscape"; "product shot"; "architectural detail";
  "street photography"; "macro photography"; "wildlife"; "fashion editorial";
  "food photography"; "interior design"; "nature scene"; "urban exploration" ].

Definition actions : list string := [
  "showcasing"; "highlighting"; "emphasizing"; "capturing";
  "depicting"; "illustrating"; "featuring"; "presenting" ].

Definition _assemble_image_prompt (modifiers constraints quality : list string)
  : M string :=
  do subject <- choice subjects;
  do action <- choice actions;
  let style :=
    if 2 <=? len modifiers then PyStr.join ", " (take 2 modifiers)
    else match modifiers with m :: _ => m | [] => "realistic" end in
  let prompt :=
    PyStr.capitalize style +:+ " " +:+ subject +:+ " " +:+ action +:+ " the subject" in
  let prompt :=
    if truthy constraints
    then prompt +:+ ". Must preserve: " +:+ PyStr.join ", " (take 3 constraints)
    else prompt in
  let prompt :=
    if truthy quality
    then prompt +:+ ". Quality requirements: " +:+ PyStr.join ", " quality
    else prompt in
  ret prompt.

Definition tasks : list string := [
  "data ingestion"; "report generation"; "approval routing";
  "notification dispatch"; "backup process"; "sync operation";
  "data validation"; "record processing"; "file transformation" ].

Definition _assemble_workflow_prompt (template : PromptTemplate)
  (modifiers constraints quality : list string) : M string :=
  do task <- choice tasks;
  do condition <- (if truthy modifiers then choice modifiers else ret "on trigger");
  let prompt := "Create " +:+ task +:+ " workflow that " +:+ condition in
  let prompt :=
    if truthy constraints
    then prompt +:+ ". Requirements: " +:+ PyStr.join ", " (take 4 constraints)
    else prompt in
  let prompt :=
    if truthy quality
    then prompt +:+ ". Standards: " +:+ PyStr.join ", " quality
    else prompt in
  ret prompt.

Definition languages : list string :=
  [ "Python"; "JavaScript"; "TypeScript"; "Go"; "Rust"; "Java" ].

Definition functionality : list string := [
  "parses CSV files"; "makes HTTP requests"; "processes queue messages";
  "validates user input"; "generates reports"; "manages database connections";
  "handles file uploads"; "implements caching"; "processes webhooks" ].

Definition _assemble_code_prompt (template : PromptTemplate)
  (modifiers constraints quality : list string) : M string :=
  do lang <- choice languages;
  do func <- choice functionality;
  do modifier <- (if truthy modifiers then choice modifiers else ret "function");
  let prompt := "Write " +:+ lang +:+ " " +:+ modifier +:+ " that " +:+ func in
  let prompt :=
    if truthy constraints
    then prompt +:+ ". Must include: " +:+ PyStr.join ", " (take 4 constraints)
    else prompt in
  let prompt :=
    if truthy quality
    then prompt +:+ ". Quality: " +:+ PyStr.join ", " quality
    else prompt in
  ret prompt.

(** Lines 205, 208 and 212: the three sample sizes. *)
Definition num_modifiers (template : PromptTemplate) (constraint_ratio u : Q) : Z :=
  Z.max 1 (py_int (inject_Z (len (modifiers template)) * constraint_ratio * u)).

Definition num_constraints (template : PromptTemplate) (constraint_ratio : Q) : Z :=
  py_int (inject_Z (len (constraints template)) * constraint_ratio).

Definition num_quality (template : PromptTemplate) : Z :=
  Z.max 1 (py_int (inject_Z (len (quality_tokens template)) * 0.4)).

(** Lines 205-215: the three selections of one iteration. *)
Definition select_components (template : PromptTemplate) (constraint_ratio : Q)
  : M (list string * list string * list string) :=
  do u <- uniform 0.3 0.7;
  do selected_modifiers <-
    sample (modifiers template) (num_modifiers template constraint_ratio u);
  do selected_constraints <-
    (if 0 <? num_constraints template constraint_ratio
     then sample (constraints template) (num_constraints template constraint_ratio)
     else ret []);
  do r <- random;
  do selected_quality <-
    (if float_lt r constraint_ratio
     then sample (quality_tokens template) (num_quality template)
     else ret []);
  ret (selected_modifiers, selected_constraints, selected_quality).

(** Lines 218-223: the dispatch on the prompt type. *)
Definition assemble (prompt_type : PromptTypeEnum) (template : PromptTemplate)
  (selected_modifiers selected_constraints selected_quality : list string)
  : M string :=
  match prompt_type with
  | IMAGE =>
      _assemble_image_prompt selected_modifiers selected_constraints selected_quality
  | WORKFLOW | AUTOMATION =>
      _assemble_workflow_prompt template
        selected_modifiers selected_constraints selected_quality
  | _ =>
      _assemble_code_prompt template
        selected_modifiers selected_constraints selected_quality
  end.

(** One turn of the loop of [generate]. *)
Definition generate_iteration (prompt_type : PromptTypeEnum)
  (templates : list PromptTemplate) (constraint_ratio : Q) : M string :=
  do template <- choice templates;
  do '(selected_modifiers, selected_constraints, selected_quality) <-
    select_components template constraint_ratio;
  assemble prompt_type template
    selected_modifiers selected_constraints selected_quality.

Definition generate (self : PromptGeneratorEngine) (prompt_type : PromptTypeEnum)
  (count : Z) (specificity : SpecificityLevel) : M (list string) :=
  let templates := templates_get self prompt_type in
  if negb (truthy templates) then raise (NoTemplates prompt_type)
  else
    let constraint_ratio := specificity_levels specificity in
    for_range (Z.to_nat count)
      (generate_iteration prompt_type templates constraint_ratio).

(** ** The optimizer *)

Definition image_keywords : list string :=
  [ "photo"; "image"; "picture"; "hair"; "face"; "look"; "style"; "portrait";
    "background" ].
Definition workflow_keywords : list string :=
  [ "workflow"; "process"; "pipeline"; "approval"; "automate" ].
Definition code_keywords : list string :=
  [ "code"; "function"; "script"; "program"; "write"; "implement"; "algorithm" ].

Definition _detect_prompt_type (prompt : string) : PromptTypeEnum :=
  let prompt_lower := PyStr.lower prompt in
  if PyStr.any_in image_keywords prompt_lower then IMAGE
  else if PyStr.any_in workflow_keywords prompt_lower then WORKFLOW
  else if PyStr.any_in code_keywords prompt_lower then CODE
  else IMAGE.

(** [for x in xs: if x in prompt.lower(): return x] and the final [return]. *)
Fixpoint first_in (xs : list string) (prompt fallback : string) : string :=
  match xs with
  | [] => fallback
  | x :: rest =>
      if x in_str PyStr.lower prompt then x else first_in rest prompt fallback
  end.

Definition _find_action (prompt : string) : string :=
  first_in
    [ "give"; "make"; "create"; "change"; "modify"; "show"; "generate"; "build" ]
    prompt "create".

Definition _find_target (prompt : string) : string :=
  first_in
    [ "hair"; "hairstyle"; "haircut"; "photo"; "image"; "code"; "workflow";
      "background" ]
    prompt "item".

(** The dictionary [{"action": ..., "target": ...}]. *)
Record Intent := mkIntent { action : string; target : string }.

Definition _extract_intent (prompt : string) : Intent :=
  {| action := _find_action prompt; target := _find_target prompt |}.

(** The dictionary of [_extract_hair_style], in insertion order. *)
Definition style_map : list (string * string) := [
  ("bowl cut", "a classic bowl cut: straight, even fringe across the forehead, rounded silhouette around the head, clean and symmetrical");
  ("pixie", "a modern pixie cut: short on sides and back, slightly longer on top, textured and layered");
  ("bob", "a sleek bob: chin-length, blunt cut, straight and polished");
  ("mullet", "a mullet: short in front and on top, long in the back, with clear distinction between lengths");
  ("undercut", "an undercut: shaved or very short sides and back, longer hair on top with clear contrast");
  ("fade", "a fade: gradual transition from short to longer hair, clean taper on sides and back");
  ("buzz", "a buzz cut: uniform short length all around, clean and low-maintenance");
  ("crew cut", "a crew cut: short on sides, slightly longer on top, classic military style") ].

Fixpoint lookup_style (items : list (string * string)) (prompt : string) : string :=
  match items with
  | [] => "the requested hairstyle with appropriate length, shape, and styling details"
  | (style, description) :: rest =>
      if style in_str PyStr.lower prompt then description
      else lookup_style rest prompt
  end.

Definition _extract_hair_style (prompt : string) : string :=
  lookup_style style_map prompt.

Definition _optimize_image_prompt (vague : string) (intent : Intent) : string :=
  let base := [] in
  let base :=
    if ("photo" in_str PyStr.lower vague) || ("image" in_str PyStr.lower vague)
    then base ++ ["Using the uploaded photo, keep the person or subject's face, identity, and proportions exactly the same"]
    else base in
  let base :=
    if ("hair" in_str PyStr.lower vague) || ("haircut" in_str PyStr.lower vague)
    then
      let style := _extract_hair_style vague in
      base ++ ["Change only their hairstyle to " +:+ style]
           ++ ["The haircut should look realistic and naturally blended with the existing hair texture, color, lighting, and head shape"]
    else if "background" in_str PyStr.lower vague
    then
      base ++ ["Change only the background while preserving the subject completely"]
           ++ ["Ensure seamless integration with proper lighting, shadows, and depth matching"]
    else
      base ++ ["Modify the " +:+ target intent +:+ " while preserving all other aspects"] in
  let base :=
    base ++ ["Do not alter facial features, expression, age, or any unspecified elements"] in
  PyStr.join ". " base.

Definition _optimize_workflow_prompt (vague : string) (intent : Intent) : string :=
  PyStr.join ". " [
    "Create a production-ready workflow that " +:+ action intent +:+ "s " +:+ target intent;
    "Include: error handling for each step, rollback mechanism on failure, logging and audit trail, retry logic with exponential backoff";
    "Ensure idempotent operations, timeout handling, monitoring hooks, and state persistence" ].

Definition _optimize_code_prompt (vague : string) (intent : Intent) : string :=
  PyStr.join ". " [
    "Write production-grade code that " +:+ action intent +:+ "s " +:+ target intent;
    "Must include: type hints/annotations, comprehensive error handling with specific exceptions, input validation, unit tests, docstrings for complex logic";
    "No hardcoded values, configuration externalized, efficient algorithm choices, clear variable names, logging instrumentation" ].

Definition _optimize_generic_prompt (vague : string) (intent : Intent) : string :=
  "Please provide a detailed, specific implementation of: " +:+ vague +:+
  ". Include all necessary constraints, requirements, and quality standards for production use.".

(** [optimize] calls nothing of [random] and raises nothing: it is a
    function of its two arguments.  [context] is [None] or a string, and
    [if context:] fails for both [None] and the empty string. *)
Definition optimize (vague_prompt : string) (context : option string)
  : string * string :=
  let prompt_type := _detect_prompt_type vague_prompt in
  let optimized :=
    match context with
    | Some c => if PyStr.is_empty c then "" else c +:+ ". "
    | None => ""
    end in
  let intent := _extract_intent vague_prompt in
  let optimized :=
    match prompt_type with
    | IMAGE => optimized +:+ _optimize_image_prompt vague_prompt intent
    | WORKFLOW => optimized +:+ _optimize_workflow_prompt vague_prompt intent
    | CODE => optimized +:+ _optimize_code_prompt vague_prompt intent
    | _ => optimized +:+ _optimize_generic_prompt vague_prompt intent
    end in
  (PyStr.strip optimized, PromptTypeEnum_value prompt_type).

(** [optimize] as a method call in the engine's world: the random source is
    there, and is handed back as it was found. *)
Definition optimize_call (vague_prompt : string) (context : option string)
  : M (string * string) :=
  ret (optimize vague_prompt context).

(** ** The HTTP layer

    The request models with the bounds their fields declare, the response
    models, and the handlers of the four endpoints.  A handler answers with
    a response body or with an [HTTPException]; the [detail] of the
    exception is the message of the exception caught, kept here as the
    exception itself.  The framework calls a handler only with a request
    that satisfies the bounds of its model ([valid]); a request outside
    them is answered with status 422 before the handler runs, and the
    statements about handlers assume [valid]. *)

Module GenerateRequest.
Record t := mk {
  prompt_type : PromptTypeEnum;
  count : Z;
  specificity : SpecificityLevel
}.
(** [Field(default=10, ge=1, le=1000)] *)
Definition valid (r : t) : Prop := 1 <= count r <= 1000.
End GenerateRequest.

Module OptimizeRequest.
Record t := mk {
  vague_prompt : string;
  context : option string
}.
(** [Field(..., min_length=1, max_length=500)] and
    [Field(None, max_length=500)] *)
Definition valid (r : t) : Prop :=
  (1 <= String.length (vague_prompt r) <= 500)%nat /\
  match context r with
  | Some c => (String.length c <= 500)%nat
  | None => True
  end.
End OptimizeRequest.

Module GenerateResponse.
Record t := mk {
  prompts : list string;
  count : Z;
  prompt_type : string;
  specificity : string
}.
End GenerateResponse.

Module OptimizeResponse.
Record t := mk {
  original : string;
  optimized : string;
  detected_type : string
}.
End OptimizeResponse.

Inductive http (A : Type) :=
| Response (body : A)
| HTTPException (status_code : Z) (detail : exn).
Arguments Response {A} body.
Arguments HTTPException {A} status_code detail.

(** [GET /] *)
Definition root : list (string * string) :=
  [ ("status", "online"); ("service", "Prompt Generator API");
    ("version", "1.0.0") ].

(** The handler of [POST /generate] *)
Definition generate_prompts (request : GenerateRequest.t) (g : Rng)
  : http GenerateResponse.t :=
  match generate engine
          (GenerateRequest.prompt_type request)
          (GenerateRequest.count request)
          (GenerateRequest.specificity request) g with
  | Ok (prompts, _) =>
      Response {|
        GenerateResponse.prompts := prompts;
        GenerateResponse.count := len prompts;
        GenerateResponse.prompt_type :=
          PromptTypeEnum_value (GenerateRequest.prompt_type request);
        GenerateResponse.specificity :=
          SpecificityLevel_value (GenerateRequest.specificity request)
      |}
  | Raise e => HTTPException 500 e
  end.

(** The handler of [POST /optimize] *)
Definition optimize_prompt (request : OptimizeRequest.t)
  : http OptimizeResponse.t :=
  let '(optimized, detected_type) :=
    optimize (OptimizeRequest.vague_prompt request)
             (OptimizeRequest.context request) in
  Response {|
    OptimizeResponse.original := OptimizeRequest.vague_prompt request;
    OptimizeResponse.optimized := optimized;
    OptimizeResponse.detected_type := detected_type
  |}.

(** The members of the two enumerations, in the order of their
    definition. *)
Definition PromptTypeEnum_members : list PromptTypeEnum :=
  [IMAGE; WORKFLOW; AUTOMATION; CODE; ANALYSIS].

Definition SpecificityLevel_members : list SpecificityLevel :=
  [LOW; MEDIUM; HIGH; EXTREME].

(** [GET /types]: the lists under "types" and "specificity_levels". *)
Definition get_prompt_types : list string * list string :=
  (map PromptTypeEnum_value PromptTypeEnum_members,
   map SpecificityLevel_value SpecificityLevel_members).

(** * Vocabulary of the statements *)

(** [m] returns from every state of the random source, with a value
    that satisfies [P]. *)
Definition succeeds {A} (m : M A) (P : A -> Prop) : Prop :=
  forall g, exists a g', m g = Ok (a, g') /\ P a.

(** The words that open the quality clause of each formatter. *)
Definition quality_clause (prompt_type : PromptTypeEnum) : string :=
  match prompt_type with
  | IMAGE => ". Quality requirements: "
  | WORKFLOW | AUTOMATION => ". Standards: "
  | _ => ". Quality: "
  end.

(** What a formatter returns for the quality tokens [quality]: a
    non-empty string that, when tokens were selected, ends with the quality
    clause listing them. *)
Definition prompt_ok (prompt_type : PromptTypeEnum) (quality : list string)
  (prompt : string) : Prop :=
  prompt <> "" /\
  (quality <> [] ->
   exists pre, prompt = pre +:+ quality_clause prompt_type +:+ PyStr.join ", " quality).

(** What one iteration selects. *)
Definition selection_ok (template : PromptTemplate) (constraint_ratio : Q)
  (sel : list string * list string * list string) : Prop :=
  let '(m, c, q) := sel in
  (exists u, (0.3 <= u)%Q /\ (u <= 0.7)%Q /\
             len m = num_modifiers template constraint_ratio u) /\
  1 <= len m <= len (modifiers template) /\ m ⊆ modifiers template /\
  len c = num_constraints template constraint_ratio /\ c ⊆ constraints template /\
  (len q = 0 \/ len q = num_quality template) /\ q ⊆ quality_tokens template /\
  ((1 <= constraint_ratio)%Q -> len q = num_quality template).

(** The four prompt types with a registered template. *)
Definition registered : list PromptTypeEnum := [IMAGE; WORKFLOW; AUTOMATION; CODE].

(** Every list of a template has an entry. *)
Definition populated (t : PromptTemplate) : Prop :=
  modifiers t <> [] /\ constraints t <> [] /\ quality_tokens t <> [].

(** What one turn of the loop returns. *)
Definition iteration_ok (prompt_type : PromptTypeEnum)
  (templates : list PromptTemplate) (constraint_ratio : Q) (prompt : string) : Prop :=
  prompt <> "" /\
  ((1 <= constraint_ratio)%Q ->
   exists t quality pre,
     t ∈ templates /\ quality ⊆ quality_tokens t /\
     len quality = num_quality t /\ 1 <= len quality /\
     prompt = pre +:+ quality_clause prompt_type +:+ PyStr.join ", " quality).

(** [prompt] carries the quality clause of its formatter, listing at least
    one quality token of [template]. *)
Definition has_quality_clause (prompt_type : PromptTypeEnum)
  (template : PromptTemplate) (prompt : string) : Prop :=
  exists pre quality,
    1 <= len quality /\ quality ⊆ quality_tokens template /\
    prompt = pre +:+ quality_clause prompt_type +:+ PyStr.join ", " quality.

(** Two strings that differ by case only. *)
Definition same_up_to_case (a b : string) : Prop := PyStr.lower a = PyStr.lower b.

(** [text] has a block equal to [kw] up to case. *)
Definition occurs_ci (kw text : string) : Prop :=
  exists pre mid suf, text = pre +:+ mid +:+ suf /\ same_up_to_case mid kw.

(** [text] mentions one of the keywords, in any case. *)
Definition mentions (kws : list string) (text : string) : Prop :=
  Exists (fun kw => occurs_ci kw text) kws.

(** The generator again, with the three literals a formatter falls back on
    when it is handed no modifier (lines 244, 265 and 288) taken as
    parameters.  [generate_with_literals] below shows that the source's
    literals give back [generate]. *)
Section FallbackLiterals.

Variables no_style no_condition no_modifier : string.

Definition _assemble_image_prompt_with (modifiers constraints quality : list string)
  : M string :=
  do subject <- choice subjects;
  do action <- choice actions;
  let style :=
    if 2 <=? len modifiers then PyStr.join ", " (take 2 modifiers)
    else match modifiers with m :: _ => m | [] => no_style end in
  let prompt :=
    PyStr.capitalize style +:+ " " +:+ subject +:+ " " +:+ action +:+ " the subject" in
  let prompt :=
    if truthy constraints
    then prompt +:+ ". Must preserve: " +:+ PyStr.join ", " (take 3 constraints)
    else prompt in
  let prompt :=
    if truthy quality
    then prompt +:+ ". Quality requirements: " +:+ PyStr.join ", " quality
    else prompt in
  ret prompt.

Definition _assemble_workflow_prompt_with (template : PromptTemplate)
  (modifiers constraints quality : list string) : M string :=
  do task <- choice tasks;
  do condition <- (if truthy modifiers then choice modifiers else ret no_condition);
  let prompt := "Create " +:+ task +:+ " workflow that " +:+ condition in
  let prompt :=
    if truthy constraints
    then prompt +:+ ". Requirements: " +:+ PyStr.join ", " (take 4 constraints)
    else prompt in
  let prompt :=
    if truthy quality
    then prompt +:+ ". Standards: " +:+ PyStr.join ", " quality
    else prompt in
  ret prompt.

Definition _assemble_code_prompt_with (template : PromptTemplate)
  (modifiers constraints quality : list string) : M string :=
  do lang <- choice languages;
  do func <- choice functionality;
  do modifier <- (if truthy modifiers then choice modifiers else ret no_modifier);
  let prompt := "Write " +:+ lang +:+ " " +:+ modifier +:+ " that " +:+ func in
  let prompt :=
    if truthy constraints
    then prompt +:+ ". Must include: " +:+ PyStr.join ", " (take 4 constraints)
    else prompt in
  let prompt :=
    if truthy quality
    then prompt +:+ ". Quality: " +:+ PyStr.join ", " quality
    else prompt in
  ret prompt.

Definition assemble_with (prompt_type : PromptTypeEnum) (template : PromptTemplate)
  (selected_modifiers selected_constraints selected_quality : list string)
  : M string :=
  match prompt_type with
  | IMAGE =>
      _assemble_image_prompt_with
        selected_modifiers selected_constraints selected_quality
  | WORKFLOW | AUTOMATION =>
      _assemble_workflow_prompt_with template
        selected_modifiers selected_constraints selected_quality
  | _ =>
      _assemble_code_prompt_with template
        selected_modifiers selected_constraints selected_quality
  end.

Definition generate_iteration_with (prompt_type : PromptTypeEnum)
  (templates : list PromptTemplate) (constraint_ratio : Q) : M string :=
  do template <- choice templates;
  do '(selected_modifiers, selected_constraints, selected_quality) <-
    select_components template constraint_ratio;
  assemble_with prompt_type template
    selected_modifiers selected_constraints selected_quality.

Definition generate_with (self : PromptGeneratorEngine)
  (prompt_type : PromptTypeEnum) (count : Z) (specificity : SpecificityLevel)
  : M (list string) :=
  let templates := templates_get self prompt_type in
  if negb (truthy templates) then raise (NoTemplates prompt_type)
  else
    let constraint_ratio := specificity_levels specificity in
    for_range (Z.to_nat count)
      (generate_iteration_with prompt_type templates constraint_ratio).

End FallbackLiterals.





(** Two tapes for examples: cell [i] of the first holds [7 * i + 3], the
    second holds zeros. *)
Definition demo_rng : Rng := mkRng (fun i => N.of_nat (7 * i + 3)) 0.
Definition zero_rng : Rng := mkRng (fun _ => 0%N) 0.

(** An engine whose only template has no modifier at all. *)
Definition bare_template : PromptTemplate := {|
  type := "code";
  base_structure := "Write {language} code that {functionality} with {requirements}";
  modifiers := [];
  constraints := ["input validation"];
  quality_tokens := ["readable"]
|}.

Definition bare_engine : PromptGeneratorEngine :=
  mkEngine {[ CODE := [bare_template] ]}.

(** Binary64 arithmetic, for the comparison with the exact sample sizes:
    the float of an integer, the float closest to a decimal fraction, the
    product, and [int]. *)
Definition b64_of_Z (z : Z) : spec_float := binary_normalize 53 1024 z 0 false.

Definition b64_of_decimal (num den : Z) : spec_float :=
  SFdiv 53 1024 (b64_of_Z num) (b64_of_Z den).

Definition b64_mul : spec_float -> spec_float -> spec_float := SFmul 53 1024.

Definition b64_int (x : spec_float) : Z :=
  match x with
  | S754_finite s m e =>
      let v := if 0 <=? e then Z.pos m * 2 ^ e else Z.pos m / 2 ^ (- e) in
      if s then - v else v
  | _ => 0
  end.

Definition b64_specificity_levels (s : SpecificityLevel) : spec_float :=
  match s with
  | LOW => b64_of_decimal 2 10
  | MEDIUM => b64_of_decimal 5 10
  | HIGH => b64_of_decimal 8 10
  | EXTREME => b64_of_Z 1
  end.

(** The first and the last character of a string. *)
Definition first_char (s : string) : option ascii :=
  match s with EmptyString => None | String c _ => Some c end.

Fixpoint last_char (s : string) : option ascii :=
  match s with
  | EmptyString => None
  | String c EmptyString => Some c
  | String _ t => last_char t
  end.

(** Neither end of [s] is a white space. *)
Definition trimmed (s : string) : Prop :=
  (forall c, first_char s = Some c -> PyStr.is_space c = false) /\
  (forall c, last_char s = Some c -> PyStr.is_space c = false).

(** [s] ends with [suffix]. *)
Definition ends_with (suffix s : string) : Prop := exists pre, s = pre +:+ suffix.

(** [s] starts with [prefix]. *)
Definition starts_with (prefix s : string) : Prop := exists suf, s = prefix +:+ suf.

(** [x] is the first entry of [xs] found in [text], whatever the case:
    [xs] is [before ++ x :: after], [x] occurs and no entry of [before]
    does. *)
Definition first_match (xs : list string) (text x : string) : Prop :=
  exists before after,
    xs = before ++ x :: after /\ occurs_ci x text /\
    Forall (fun y => ~ occurs_ci y text) before.

(** What [optimize] puts before the expansion: the context and ". ", or
    nothing. *)
Definition context_prefix (context : option string) : string :=
  match context with
  | Some c => if PyStr.is_empty c then "" else c +:+ ". "
  | None => ""
  end.

(** The expansion [optimize] appends, by detected type. *)
Definition expansion (vague_prompt : string) : string :=
  let intent := _extract_intent vague_prompt in
  match _detect_prompt_type vague_prompt with
  | IMAGE => _optimize_image_prompt vague_prompt intent
  | WORKFLOW => _optimize_workflow_prompt vague_prompt intent
  | CODE => _optimize_code_prompt vague_prompt intent
  | _ => _optimize_generic_prompt vague_prompt intent
  end.

(** [s] is not empty and [rstrip] leaves it as it is. *)
Definition solid_end (s : string) : Prop := PyStr.rstrip s = s /\ s <> "".





(** * Properties *)

(** ** Strings *)

Section StringFacts.

Import PyStr.

Lemma append_nil_l (s : string) : "" +:+ s = s.
Proof. reflexivity. Qed.

Lemma append_cons (c : ascii) (a b : string) :
  String c a +:+ b = String c (a +:+ b).
Proof. reflexivity. Qed.


Lemma append_assoc (a b c : string) : (a +:+ b) +:+ c = a +:+ (b +:+ c).
Proof.
  induction a as [|x a IH]; [reflexivity | now rewrite !append_cons, IH].
Qed.

Lemma length_append (a b : string) :
  String.length (a +:+ b) = (String.length a + String.length b)%nat.
Proof.
  induction a as [|x a IH]; [reflexivity | rewrite append_cons; simpl; now rewrite IH].
Qed.

Lemma startswith_spec (p s : string) :
  startswith p s = true <-> exists suf, s = p +:+ suf.
Proof.
  revert s; induction p as [|a p IH]; intros s; simpl.
  - split; [intros _; now exists s | reflexivity].
  - destruct s as [|b s].
    + split; [discriminate | intros [suf H]; discriminate].
    + destruct (Ascii.eqb_spec a b) as [->|Hab].
      * rewrite IH. split; intros [suf H]; exists suf;
          rewrite append_cons in *; congruence.
      * split; [discriminate | intros [suf H]; rewrite append_cons in H; congruence].
Qed.

(** The [in] operator decides occurrence as a contiguous block. *)
Lemma contains_spec (needle hay : string) :
  contains needle hay = true <-> occurs needle hay.
Proof.
  unfold occurs. induction hay as [|c hay IH]; simpl.
  - rewrite orb_false_r, startswith_spec. split.
    + intros [suf H]. now exists "", suf.
    + intros [[|x pre] [suf H]]; [now exists suf | discriminate].
  - rewrite orb_true_iff, startswith_spec, IH. split.
    + intros [[suf H] | (pre & suf & H)].
      * now exists "", suf.
      * exists (String c pre), suf. now rewrite append_cons, H.
    + intros [[|x pre] [suf H]].
      * left. now exists suf.
      * right. exists pre, suf. rewrite append_cons in H. congruence.
Qed.

Lemma contains_intro (pre needle suf : string) :
  contains needle (pre +:+ needle +:+ suf) = true.
Proof. apply contains_spec. now exists pre, suf. Qed.

Lemma lower_append (a b : string) : lower (a +:+ b) = lower a +:+ lower b.
Proof.
  induction a as [|x a IH]; [reflexivity|].
  rewrite append_cons. simpl. now rewrite IH.
Qed.

(** A split of [lower s] comes from a split of [s]. *)
Lemma lower_split (s p q : string) :
  lower s = p +:+ q -> exists a b, s = a +:+ b /\ lower a = p /\ lower b = q.
Proof.
  revert s; induction p as [|x p IH]; intros s H.
  - now exists "", s.
  - destruct s as [|c s]; [discriminate|]. simpl in H.
    rewrite append_cons in H.
    injection H as Hc Hs. destruct (IH _ Hs) as (a & b & -> & Ha & Hb).
    exists (String c a), b. simpl. now rewrite Hc, Ha.
Qed.

End StringFacts.

(** ** Reasoning about computations *)

Section Computations.


Lemma succeeds_ret {A} (a : A) (P : A -> Prop) : P a -> succeeds (ret a) P.
Proof. intros H g. now exists a, g. Qed.

Lemma succeeds_bind {A B} (m : M A) (k : A -> M B) P Q :
  succeeds m P -> (forall a, P a -> succeeds (k a) Q) -> succeeds (bind m k) Q.
Proof.
  intros Hm Hk g. destruct (Hm g) as (a & g1 & E & Ha).
  destruct (Hk a Ha g1) as (b & g2 & E' & Hb).
  exists b, g2. unfold bind. now rewrite E.
Qed.

Lemma succeeds_weaken {A} (m : M A) (P Q : A -> Prop) :
  succeeds m P -> (forall a, P a -> Q a) -> succeeds m Q.
Proof.
  intros Hm HPQ g. destruct (Hm g) as (a & g' & E & Ha). exists a, g'. auto.
Qed.

Lemma succeeds_for_range {A} (n : nat) (body : M A) (P : A -> Prop) :
  succeeds body P ->
  succeeds (for_range n body) (fun xs => length xs = n /\ Forall P xs).
Proof.
  intros Hb. induction n as [|n IH]; simpl.
  - apply succeeds_ret. split; [reflexivity | constructor].
  - eapply succeeds_bind; [exact Hb|]. intros x Hx.
    eapply succeeds_bind; [exact IH|]. intros xs [Hl Hxs].
    apply succeeds_ret. split; [simpl; congruence | now constructor].
Qed.

(** Two continuations that agree on what [m] can return give the same
    computation. *)
Lemma bind_agree {A B} (m : M A) (k1 k2 : A -> M B) (P : A -> Prop) :
  succeeds m P -> (forall a, P a -> forall g, k1 a g = k2 a g) ->
  forall g, bind m k1 g = bind m k2 g.
Proof.
  intros Hm Hk g. destruct (Hm g) as (a & g' & E & Ha).
  unfold bind. rewrite E. now apply Hk.
Qed.

Lemma for_range_agree {A} (n : nat) (b1 b2 : M A) :
  (forall g, b1 g = b2 g) -> forall g, for_range n b1 g = for_range n b2 g.
Proof.
  intros Hb. induction n as [|n IH]; intros g; simpl; [reflexivity|].
  unfold bind. rewrite Hb. destruct (b2 g) as [[x g1]|e]; [|reflexivity].
  now rewrite IH.
Qed.

End Computations.

(** ** The random primitives *)

Section RandomFacts.

Lemma next_draw_ok : succeeds next_draw (fun _ => True).
Proof. intros g. eexists _, _. split; [reflexivity | exact I]. Qed.

Lemma randbelow_ok (n : nat) :
  (0 < n)%nat -> succeeds (randbelow n) (fun j => (j < n)%nat).
Proof.
  intros Hn. unfold randbelow. eapply succeeds_bind; [apply next_draw_ok|].
  intros k _. apply succeeds_ret. apply Nat.mod_upper_bound. lia.
Qed.

(** [random()] lies in [0, 1). *)
Lemma random_ok : succeeds random (fun r => (0 <= r)%Q /\ (r < 1)%Q).
Proof.
  unfold random. eapply succeeds_bind; [apply next_draw_ok|].
  intros k _. apply succeeds_ret.
  assert (H : (k mod 2 ^ 53 < 2 ^ 53)%N) by (apply N.mod_lt; discriminate).
  apply N2Z.inj_lt in H. change (Z.of_N (2 ^ 53)) with (Z.pos (2 ^ 53)) in H.
  pose proof (N2Z.is_nonneg (k mod 2 ^ 53)) as H0.
  unfold Qle, Qlt; cbn [Qnum Qden].
  generalize dependent (Z.of_N (k mod 2 ^ 53)). intros z Hz H0. lia.
Qed.

(** [uniform(a, b)] lies between [a] and [b]. *)
Lemma uniform_ok (a b : Q) :
  (a <= b)%Q -> succeeds (uniform a b) (fun u => (a <= u)%Q /\ (u <= b)%Q).
Proof.
  intros Hab. unfold uniform. eapply succeeds_bind; [apply random_ok|].
  intros r [H0 H1]. apply succeeds_ret.
  assert (Hd : (0 <= b - a)%Q) by (unfold Qminus; rewrite <- Qle_minus_iff; exact Hab).
  split.
  - rewrite <- (Qplus_0_r a) at 1. apply Qplus_le_r.
    now apply Qmult_le_0_compat.
  - apply Qle_trans with (a + (b - a) * 1)%Q.
    + apply Qplus_le_r. rewrite !(Qmult_comm (b - a)).
      apply Qmult_le_compat_r; [now apply Qlt_le_weak | exact Hd].
    + apply Qle_lteq. right. ring.
Qed.

Lemma choice_ok {A} (seq : list A) :
  seq <> [] -> succeeds (choice seq) (fun x => x ∈ seq).
Proof.
  destruct seq as [|x seq]; [congruence | intros _].
  unfold choice. eapply succeeds_bind; [apply randbelow_ok; simpl; lia|].
  intros j Hj. apply succeeds_ret.
  apply list_elem_of_In, nth_In, Hj.
Qed.

Lemma sample_pool_ok {A} (k : nat) (pool : list A) :
  (k <= length pool)%nat ->
  succeeds (sample_pool k pool) (fun xs => length xs = k /\ xs ⊆ pool).
Proof.
  revert pool. induction k as [|k IH]; intros pool Hk.
  - apply succeeds_ret. split; [reflexivity | apply list_subseteq_nil].
  - destruct pool as [|x pool]; [simpl in Hk; lia|].
    cbn [sample_pool]. set (p := x :: pool) in *.
    eapply succeeds_bind; [apply randbelow_ok; subst p; simpl; lia|].
    intros j Hj.
    assert (Hlast : nth (pred (length p)) p x ∈ p)
      by (apply list_elem_of_In, nth_In; subst p; simpl; lia).
    assert (Hsub : take (pred (length p)) (<[j := nth (pred (length p)) p x]> p) ⊆ p).
    { intros y Hy. apply elem_of_take in Hy as (i & Hy & _).
      destruct (decide (i = j)) as [->|Hij].
      - rewrite list_lookup_insert_eq in Hy by exact Hj.
        injection Hy as <-. exact Hlast.
      - rewrite list_lookup_insert_ne in Hy by congruence.
        eapply list_elem_of_lookup_2, Hy. }
    eapply succeeds_bind.
    + apply IH. rewrite length_take, length_insert. subst p; simpl in *; lia.
    + intros rest [Hl Hr]. apply succeeds_ret. split; [simpl; congruence|].
      intros y Hy. apply elem_of_cons in Hy as [->|Hy].
      * apply list_elem_of_In, nth_In, Hj.
      * apply Hsub, Hr, Hy.
Qed.

(** Within the bounds, [sample] returns [k] members of the population. *)
Lemma sample_ok {A} (population : list A) (k : Z) :
  0 <= k <= len population ->
  succeeds (sample population k)
    (fun xs => len xs = k /\ xs ⊆ population).
Proof.
  intros Hk. unfold sample, len in *.
  replace ((0 <=? k) && (k <=? Z.of_nat (length population))) with true
    by (symmetry; apply andb_true_iff; split; apply Z.leb_le; lia).
  eapply succeeds_weaken; [apply sample_pool_ok; lia|].
  intros xs [Hl Hs]. split; [lia | exact Hs].
Qed.

(** Outside the bounds, [sample] raises: nothing is clamped. *)
Lemma sample_raises {A} (population : list A) (k : Z) (g : Rng) :
  k < 0 \/ len population < k ->
  sample population k g = Raise SampleLargerThanPopulation.
Proof.
  intros Hk. unfold sample, len in *.
  replace ((0 <=? k) && (k <=? Z.of_nat (length population))) with false;
    [reflexivity|].
  symmetry. apply andb_false_iff. rewrite Z.leb_gt, Z.leb_gt. lia.
Qed.

End RandomFacts.

(** ** The sample sizes *)

Section SampleSizes.

Lemma float_lt_spec (x y : Q) : float_lt x y = true <-> (x < y)%Q.
Proof. unfold float_lt, Qlt. apply Z.ltb_lt. Qed.

(** On a non-negative argument [int] is the floor, so it stays below
    every integer bound of its argument. *)
Lemma py_int_bounds (x : Q) (n : Z) :
  (0 <= x)%Q -> (x <= inject_Z n)%Q -> 0 <= py_int x <= n.
Proof.
  destruct x as [p q]. unfold Qle, py_int; cbn [Qnum Qden inject_Z].
  intros H0 Hn. rewrite Z.quot_div_nonneg by lia. split.
  - apply Z.div_pos; lia.
  - apply Z.div_le_upper_bound; lia.
Qed.

Lemma Qmult_unit_interval (a b : Q) :
  (0 <= a)%Q -> (0 <= b)%Q -> (b <= 1)%Q -> (0 <= a * b)%Q /\ (a * b <= a)%Q.
Proof.
  intros Ha Hb0 Hb1. split; [now apply Qmult_le_0_compat|].
  apply Qle_trans with (a * 1)%Q.
  - rewrite !(Qmult_comm a). now apply Qmult_le_compat_r.
  - apply Qle_lteq. right. ring.
Qed.

Lemma len_nonneg {A} (l : list A) : 0 <= len l.
Proof. unfold len. lia. Qed.

Lemma len_pos {A} (l : list A) : l <> [] -> 1 <= len l.
Proof. destruct l; [congruence | unfold len; simpl; lia]. Qed.

Lemma inject_len_nonneg {A} (l : list A) : (0 <= inject_Z (len l))%Q.
Proof. unfold Qle; simpl. pose proof (len_nonneg l). lia. Qed.

Lemma specificity_levels_unit (s : SpecificityLevel) :
  (0 <= specificity_levels s)%Q /\ (specificity_levels s <= 1)%Q.
Proof. destruct s; split; unfold Qle; simpl; lia. Qed.

Variable template : PromptTemplate.
Variable constraint_ratio : Q.
Hypothesis ratio_nonneg : (0 <= constraint_ratio)%Q.
Hypothesis ratio_le_1 : (constraint_ratio <= 1)%Q.

(** Line 205: between one and the number of modifiers, as soon as there
    is a modifier and the draw is at most one. *)
Lemma num_modifiers_bounds (u : Q) :
  modifiers template <> [] -> (0 <= u)%Q -> (u <= 1)%Q ->
  1 <= num_modifiers template constraint_ratio u <= len (modifiers template).
Proof.
  intros Hm Hu0 Hu1. unfold num_modifiers.
  pose proof (len_pos _ Hm) as Hl.
  pose proof (inject_len_nonneg (modifiers template)) as Hi.
  destruct (Qmult_unit_interval _ _ Hi ratio_nonneg ratio_le_1) as [Ha0 Ha1].
  destruct (Qmult_unit_interval _ _ Ha0 Hu0 Hu1) as [Hb0 Hb1].
  pose proof (py_int_bounds _ (len (modifiers template)) Hb0
                (Qle_trans _ _ _ Hb1 Ha1)).
  lia.
Qed.

(** Line 208: never more than the number of constraints. *)
Lemma num_constraints_bounds :
  0 <= num_constraints template constraint_ratio <= len (constraints template).
Proof.
  unfold num_constraints.
  pose proof (inject_len_nonneg (constraints template)) as Hi.
  destruct (Qmult_unit_interval _ _ Hi ratio_nonneg ratio_le_1) as [Ha0 Ha1].
  exact (py_int_bounds _ _ Ha0 Ha1).
Qed.

(** Line 212: between one and the number of quality tokens, as soon as
    there is one. *)
Lemma num_quality_bounds :
  quality_tokens template <> [] ->
  1 <= num_quality template <= len (quality_tokens template).
Proof.
  intros Hq. unfold num_quality.
  pose proof (len_pos _ Hq) as Hl.
  pose proof (inject_len_nonneg (quality_tokens template)) as Hi.
  assert (H04 : (0 <= 0.4)%Q /\ (0.4 <= 1)%Q) by (split; unfold Qle; simpl; lia).
  destruct (Qmult_unit_interval _ _ Hi (proj1 H04) (proj2 H04)) as [Ha0 Ha1].
  pose proof (py_int_bounds _ _ Ha0 Ha1). lia.
Qed.


Lemma select_components_ok :
  modifiers template <> [] -> quality_tokens template <> [] ->
  succeeds (select_components template constraint_ratio)
    (selection_ok template constraint_ratio).
Proof.
  intros Hm Hq. unfold select_components.
  eapply succeeds_bind; [apply uniform_ok; unfold Qle; simpl; lia|].
  intros u [Hu0 Hu1].
  assert (Hu0' : (0 <= u)%Q)
    by (eapply Qle_trans; [|exact Hu0]; unfold Qle; simpl; lia).
  assert (Hu1' : (u <= 1)%Q)
    by (eapply Qle_trans; [exact Hu1|]; unfold Qle; simpl; lia).
  pose proof (num_modifiers_bounds u Hm Hu0' Hu1') as Hnm.
  eapply succeeds_bind; [apply sample_ok; lia|].
  intros m [Hlm Hsm].
  pose proof num_constraints_bounds as Hnc.
  eapply succeeds_bind with
    (P := fun c => len c = num_constraints template constraint_ratio /\
                   c ⊆ constraints template).
  { destruct (0 <? num_constraints template constraint_ratio) eqn:E.
    - apply sample_ok. lia.
    - apply succeeds_ret. apply Z.ltb_ge in E.
      split; [unfold len; simpl; lia | apply list_subseteq_nil]. }
  intros c [Hlc Hsc].
  eapply succeeds_bind; [apply random_ok|].
  intros r [Hr0 Hr1].
  pose proof (num_quality_bounds Hq) as Hnq.
  eapply succeeds_bind with
    (P := fun q => (len q = 0 \/ len q = num_quality template) /\
                   q ⊆ quality_tokens template /\
                   ((1 <= constraint_ratio)%Q -> len q = num_quality template)).
  { destruct (float_lt r constraint_ratio) eqn:E.
    - eapply succeeds_weaken; [apply sample_ok; lia|].
      intros q [Hlq Hsq]. auto.
    - apply succeeds_ret. split; [now left|].
      split; [apply list_subseteq_nil|]. intros H1.
      assert (float_lt r constraint_ratio = true)
        by (apply float_lt_spec; eapply Qlt_le_trans; eassumption).
      congruence. }
  intros q (Hlq & Hsq & Hfull).
  apply succeeds_ret. unfold selection_ok.
  split; [exists u; auto|]. repeat split; auto; lia.
Qed.

End SampleSizes.

(** ** The formatters *)

Section Formatters.

(** A string with a literal inside is not empty: count the characters. *)
Ltac nonempty_by_length :=
  let E := fresh "E" in
  intros E; apply (f_equal String.length) in E;
  rewrite ?length_append in E; simpl in E; lia.

Lemma truthy_false {A} (l : list A) : truthy l = false -> l = [].
Proof. destruct l; [reflexivity | discriminate]. Qed.

Lemma truthy_true {A} (l : list A) : truthy l = true -> l <> [].
Proof. destruct l; [discriminate | congruence]. Qed.

Ltac finish_prompt constraints quality :=
  apply succeeds_ret; cbv zeta; split;
  [ destruct (truthy constraints), (truthy quality); nonempty_by_length
  | intros Hq; destruct quality; [congruence|]; cbn [truthy];
    eexists; reflexivity ].

Lemma _assemble_image_prompt_ok (modifiers constraints quality : list string) :
  succeeds (_assemble_image_prompt modifiers constraints quality)
    (prompt_ok IMAGE quality).
Proof.
  unfold _assemble_image_prompt.
  eapply succeeds_bind; [apply choice_ok; discriminate|]. intros subject _.
  eapply succeeds_bind; [apply choice_ok; discriminate|]. intros action _.
  apply succeeds_ret; cbv zeta; split.
  - destruct (truthy constraints), (truthy quality); nonempty_by_length.
  - intros Hq; destruct quality; [congruence|]; cbn [truthy];
      eexists; reflexivity.
Qed.

Lemma _assemble_workflow_prompt_ok (prompt_type : PromptTypeEnum)
  (template : PromptTemplate) (modifiers constraints quality : list string) :
  prompt_type = WORKFLOW \/ prompt_type = AUTOMATION ->
  succeeds (_assemble_workflow_prompt template modifiers constraints quality)
    (prompt_ok prompt_type quality).
Proof.
  intros Hpt. unfold _assemble_workflow_prompt.
  eapply succeeds_bind; [apply choice_ok; discriminate|]. intros task _.
  eapply succeeds_bind with (P := fun _ => True).
  { destruct (truthy modifiers) eqn:E.
    - eapply succeeds_weaken; [apply choice_ok, truthy_true, E | auto].
    - now apply succeeds_ret. }
  intros condition _.
  destruct Hpt as [-> | ->]; finish_prompt constraints quality.
Qed.

Lemma _assemble_code_prompt_ok (prompt_type : PromptTypeEnum)
  (template : PromptTemplate) (modifiers constraints quality : list string) :
  prompt_type = CODE \/ prompt_type = ANALYSIS ->
  succeeds (_assemble_code_prompt template modifiers constraints quality)
    (prompt_ok prompt_type quality).
Proof.
  intros Hpt. unfold _assemble_code_prompt.
  eapply succeeds_bind; [apply choice_ok; discriminate|]. intros lang _.
  eapply succeeds_bind; [apply choice_ok; discriminate|]. intros func _.
  eapply succeeds_bind with (P := fun _ => True).
  { destruct (truthy modifiers) eqn:E.
    - eapply succeeds_weaken; [apply choice_ok, truthy_true, E | auto].
    - now apply succeeds_ret. }
  intros modifier _.
  destruct Hpt as [-> | ->]; finish_prompt constraints quality.
Qed.

Lemma assemble_ok (prompt_type : PromptTypeEnum) (template : PromptTemplate)
  (modifiers constraints quality : list string) :
  succeeds (assemble prompt_type template modifiers constraints quality)
    (prompt_ok prompt_type quality).
Proof.
  destruct prompt_type; cbn [assemble];
    first [ apply _assemble_image_prompt_ok
          | apply _assemble_workflow_prompt_ok; auto
          | apply _assemble_code_prompt_ok; auto ].
Qed.

End Formatters.

(** ** The loop of [generate] *)

Section Generate.


Lemma registered_templates (prompt_type : PromptTypeEnum) :
  In prompt_type registered ->
  exists t, templates_get engine prompt_type = [t] /\ populated t.
Proof.
  intros [<- | [<- | [<- | [<- | []]]]];
    eexists; (split; [vm_compute; reflexivity | repeat split; discriminate]).
Qed.


Lemma len_nonempty {A} (l : list A) : 1 <= len l -> l <> [].
Proof. destruct l; [unfold len; simpl; lia | congruence]. Qed.

Lemma generate_iteration_ok (prompt_type : PromptTypeEnum)
  (templates : list PromptTemplate) (constraint_ratio : Q) :
  templates <> [] -> Forall populated templates ->
  (0 <= constraint_ratio)%Q -> (constraint_ratio <= 1)%Q ->
  succeeds (generate_iteration prompt_type templates constraint_ratio)
    (iteration_ok prompt_type templates constraint_ratio).
Proof.
  intros Hne Hpop H0 H1. unfold generate_iteration.
  eapply succeeds_bind; [apply choice_ok, Hne|]. intros t Ht.
  rewrite Forall_forall in Hpop. destruct (Hpop t Ht) as (Hm & _ & Hq).
  eapply succeeds_bind;
    [apply (select_components_ok t constraint_ratio H0 H1 Hm Hq)|].
  intros [[m c] q] (_ & _ & _ & _ & _ & _ & Hsq & Hfull).
  eapply succeeds_weaken; [apply assemble_ok|].
  intros prompt [Hp Hclause]. split; [exact Hp|]. intros Hr.
  specialize (Hfull Hr).
  pose proof (num_quality_bounds t Hq) as Hnq.
  destruct Hclause as [pre ->]; [apply len_nonempty; lia|].
  exists t, q, pre. repeat split; auto; lia.
Qed.

Lemma generate_ok (self : PromptGeneratorEngine) (prompt_type : PromptTypeEnum)
  (count : Z) (specificity : SpecificityLevel) :
  templates_get self prompt_type <> [] ->
  Forall populated (templates_get self prompt_type) ->
  succeeds (generate self prompt_type count specificity)
    (fun prompts =>
       length prompts = Z.to_nat count /\
       Forall (iteration_ok prompt_type (templates_get self prompt_type)
                 (specificity_levels specificity)) prompts).
Proof.
  intros Hne Hpop. unfold generate.
  destruct (templates_get self prompt_type) as [|t ts] eqn:E; [congruence|].
  cbn [truthy negb].
  destruct (specificity_levels_unit specificity) as [H0 H1].
  apply succeeds_for_range, generate_iteration_ok; auto.
Qed.

End Generate.

(** ** Binary64 and the exact sample sizes *)

(** For every registered template and every level, the two sample sizes
    that do not depend on a draw are the same whether the products are
    rounded to binary64 or exact. *)
Lemma binary64_counts (t : PromptTemplate) (s : SpecificityLevel) :
  In t [image_template; workflow_template; automation_template; code_template] ->
  b64_int (b64_mul (b64_of_Z (len (constraints t))) (b64_specificity_levels s))
    = num_constraints t (specificity_levels s) /\
  Z.max 1 (b64_int (b64_mul (b64_of_Z (len (quality_tokens t))) (b64_of_decimal 4 10)))
    = num_quality t.
Proof.
  intros [<- | [<- | [<- | [<- | []]]]]; destruct s; vm_compute; split; reflexivity.
Qed.

(** ** Classification *)

Section Classification.

Import PyStr.

Lemma occurs_ci_spec (kw text : string) :
  occurs_ci kw text <-> contains (lower kw) (lower text) = true.
Proof.
  rewrite contains_spec. unfold occurs_ci, occurs, same_up_to_case. split.
  - intros (pre & mid & suf & -> & E).
    exists (lower pre), (lower suf). now rewrite !lower_append, E.
  - intros (p & q & E).
    apply lower_split in E as (pre & rest & -> & <- & E).
    apply lower_split in E as (mid & suf & -> & E & _).
    now exists pre, mid, suf.
Qed.

(** Over lower-case keywords, the scan of [_detect_prompt_type] decides
    whether the text mentions one of them. *)
Lemma any_in_lower_spec (kws : list string) (text : string) :
  Forall (fun kw => lower kw = kw) kws ->
  any_in kws (lower text) = true <-> mentions kws text.
Proof.
  intros Hlow. unfold any_in, mentions.
  rewrite existsb_exists, Exists_exists. split.
  - intros (kw & Hin & Hc). exists kw. split; [now apply list_elem_of_In|].
    apply occurs_ci_spec.
    rewrite Forall_forall in Hlow. rewrite (Hlow kw); [exact Hc|].
    now apply list_elem_of_In.
  - intros (kw & Hin & Hc). exists kw. split; [now apply list_elem_of_In|].
    apply occurs_ci_spec in Hc.
    rewrite Forall_forall in Hlow. now rewrite (Hlow kw) in Hc.
Qed.

Lemma any_in_lower_false (kws : list string) (text : string) :
  Forall (fun kw => lower kw = kw) kws ->
  ~ mentions kws text -> any_in kws (lower text) = false.
Proof.
  intros Hlow Hno. destruct (any_in kws (lower text)) eqn:E; [|reflexivity].
  exfalso. now apply Hno, any_in_lower_spec.
Qed.

Lemma image_keywords_lower : Forall (fun kw => lower kw = kw) image_keywords.
Proof. repeat constructor. Qed.

Lemma workflow_keywords_lower : Forall (fun kw => lower kw = kw) workflow_keywords.
Proof. repeat constructor. Qed.

Lemma code_keywords_lower : Forall (fun kw => lower kw = kw) code_keywords.
Proof. repeat constructor. Qed.

End Classification.

(** * The claims *)

(** C1: for every prompt type among image, workflow, automation and code,
    every count between 1 and 1000, every specificity level and every state
    of the random source, [generate] returns a list of exactly [count]
    strings, none of which is empty. *)
Theorem generate_returns_count_nonempty_strings
  (prompt_type : PromptTypeEnum) (count : Z) (specificity : SpecificityLevel)
  (g : Rng) :
  In prompt_type [IMAGE; WORKFLOW; AUTOMATION; CODE] ->
  1 <= count <= 1000 ->
  exists prompts g',
    generate engine prompt_type count specificity g = Ok (prompts, g') /\
    len prompts = count /\
    Forall (fun prompt => prompt <> "") prompts.
Proof.
  intros Hpt Hcount.
  destruct (registered_templates prompt_type Hpt) as (t & Et & Hpop).
  destruct (generate_ok engine prompt_type count specificity) with (g := g)
    as (prompts & g' & E & Hl & Hall).
  - rewrite Et. discriminate.
  - rewrite Et. repeat constructor; apply Hpop.
  - exists prompts, g'. split; [exact E|]. split; [unfold len; lia|].
    eapply Forall_impl; [exact Hall|]. intros p [Hp _]. exact Hp.
Qed.

Lemma generate_returns_count_nonempty_strings_witness :
  In WORKFLOW [IMAGE; WORKFLOW; AUTOMATION; CODE] /\
  1 <= 3 <= 1000 /\
  exists prompts g',
    generate engine WORKFLOW 3 MEDIUM demo_rng = Ok (prompts, g') /\
    len prompts = 3 /\
    Forall (fun prompt => prompt <> "") prompts.
Proof.
  split; [simpl; auto|]. split; [lia|].
  apply (generate_returns_count_nonempty_strings WORKFLOW 3 MEDIUM demo_rng);
    [simpl; auto | lia].
Defined.

(** C2: [generate] raises the no-templates error whenever the requested
    prompt type has no registered template, whatever the engine, the count,
    the level and the random source; for "analysis" on the built-in engine
    it always does, and nothing is returned. *)
Theorem generate_unknown_category :
  (forall (self : PromptGeneratorEngine) (prompt_type : PromptTypeEnum)
          (count : Z) (specificity : SpecificityLevel) (g : Rng),
     templates_get self prompt_type = [] ->
     generate self prompt_type count specificity g = Raise (NoTemplates prompt_type)) /\
  (forall (count : Z) (specificity : SpecificityLevel) (g : Rng),
     generate engine ANALYSIS count specificity g = Raise (NoTemplates ANALYSIS)).
Proof.
  split.
  - intros self prompt_type count specificity g E. unfold generate. now rewrite E.
  - intros count specificity g. reflexivity.
Qed.

Lemma generate_unknown_category_witness :
  templates_get bare_engine IMAGE = [] /\
  generate bare_engine IMAGE 5 HIGH demo_rng = Raise (NoTemplates IMAGE).
Proof.
  split; [reflexivity|].
  apply (proj1 generate_unknown_category bare_engine IMAGE 5 HIGH demo_rng).
  reflexivity.
Defined.

(** C3, as the claim states it, fails: "analysis" belongs to the
    enumeration and the catalog holds no template for it. *)
Lemma catalog_misses_analysis :
  ~ (forall prompt_type : PromptTypeEnum,
       (1 <= length (templates_get engine prompt_type))%nat).
Proof. intros H. specialize (H ANALYSIS). vm_compute in H. lia. Qed.

(** C3, amended: every prompt type of the enumeration other than
    "analysis" maps to a non-empty list of templates in the catalog built
    at initialization; "analysis" has no entry. *)
Theorem catalog_registered_types_nonempty :
  (forall prompt_type : PromptTypeEnum,
     prompt_type <> ANALYSIS ->
     exists t ts, templates engine !! prompt_type = Some (t :: ts) /\
                  (1 <= length (templates_get engine prompt_type))%nat) /\
  templates engine !! ANALYSIS = None.
Proof.
  split; [|reflexivity].
  intros [] H; try congruence;
    eexists _, _; (split; [vm_compute; reflexivity | vm_compute; lia]).
Qed.

Lemma catalog_registered_types_nonempty_witness :
  CODE <> ANALYSIS /\
  exists t ts, templates engine !! CODE = Some (t :: ts) /\
               (1 <= length (templates_get engine CODE))%nat.
Proof.
  split; [discriminate|].
  apply (proj1 catalog_registered_types_nonempty CODE). discriminate.
Defined.

(** At the extreme level every prompt of a registered type carries its
    quality clause. *)
Lemma extreme_quality_clause (prompt_type : PromptTypeEnum) (t : PromptTemplate)
  (count : Z) (g : Rng) :
  templates_get engine prompt_type = [t] -> populated t ->
  exists prompts g',
    generate engine prompt_type count EXTREME g = Ok (prompts, g') /\
    Forall (fun prompt =>
              quality_clause prompt_type in_str prompt = true /\
              has_quality_clause prompt_type t prompt) prompts.
Proof.
  intros Et Hpop.
  destruct (generate_ok engine prompt_type count EXTREME) with (g := g)
    as (prompts & g' & E & _ & Hall).
  - rewrite Et. discriminate.
  - rewrite Et. repeat constructor; apply Hpop.
  - exists prompts, g'. split; [exact E|].
    eapply Forall_impl; [exact Hall|]. intros p [_ Hc].
    destruct Hc as (t' & q & pre & Ht' & Hq & _ & Hlen & ->);
      [unfold Qle; simpl; lia|].
    rewrite Et in Ht'. apply list_elem_of_singleton in Ht' as ->.
    split; [apply contains_intro | now exists pre, q].
Qed.

(** C4: at specificity "extreme" the ratio is 1.0, the gate
    [random.random() < constraint_ratio] passes for every draw, and every
    string generated for the workflow and code types contains its quality
    clause (". Standards: " and ". Quality: ") followed by at least one
    quality token of the template. *)
Theorem extreme_always_includes_quality_clause :
  (forall g : Rng, exists r g',
     random g = Ok (r, g') /\ float_lt r (specificity_levels EXTREME) = true) /\
  (forall (count : Z) (g : Rng), exists prompts g',
     generate engine WORKFLOW count EXTREME g = Ok (prompts, g') /\
     Forall (fun prompt =>
               ". Standards: " in_str prompt = true /\
               has_quality_clause WORKFLOW workflow_template prompt) prompts) /\
  (forall (count : Z) (g : Rng), exists prompts g',
     generate engine CODE count EXTREME g = Ok (prompts, g') /\
     Forall (fun prompt =>
               ". Quality: " in_str prompt = true /\
               has_quality_clause CODE code_template prompt) prompts).
Proof.
  split; [|split].
  - intros g. destruct (random_ok g) as (r & g' & E & _ & H1).
    exists r, g'. split; [exact E|]. apply float_lt_spec.
    eapply Qlt_le_trans; [exact H1|]. unfold Qle; simpl; lia.
  - intros count g.
    apply (extreme_quality_clause WORKFLOW workflow_template count g);
      [reflexivity | repeat split; discriminate].
  - intros count g.
    apply (extreme_quality_clause CODE code_template count g);
      [reflexivity | repeat split; discriminate].
Qed.

(** C5: [_detect_prompt_type] looks, without regard to case, for the
    image keywords first, then the workflow keywords, then the code
    keywords; the first list with a keyword in the text decides, and a text
    with no keyword is an image prompt.  So a text that contains "style",
    in any case, is an image prompt whatever else it contains. *)
Theorem detect_prompt_type_precedence (text : string) :
  let image :=
    mentions ["photo"; "image"; "picture"; "hair"; "face"; "look"; "style";
              "portrait"; "background"] text in
  let workflow :=
    mentions ["workflow"; "process"; "pipeline"; "approval"; "automate"] text in
  let code :=
    mentions ["code"; "function"; "script"; "program"; "write"; "implement";
              "algorithm"] text in
  (image -> _detect_prompt_type text = IMAGE) /\
  (~ image -> workflow -> _detect_prompt_type text = WORKFLOW) /\
  (~ image -> ~ workflow -> code -> _detect_prompt_type text = CODE) /\
  (~ image -> ~ workflow -> ~ code -> _detect_prompt_type text = IMAGE) /\
  (occurs_ci "style" text -> _detect_prompt_type text = IMAGE).
Proof.
  intros image workflow code.
  assert (Hi : image -> _detect_prompt_type text = IMAGE).
  { intros H. unfold _detect_prompt_type.
    apply (any_in_lower_spec image_keywords text image_keywords_lower) in H.
    now rewrite H. }
  split; [exact Hi|]. repeat split.
  - intros Hni Hw. unfold _detect_prompt_type.
    rewrite (any_in_lower_false _ _ image_keywords_lower Hni).
    apply (any_in_lower_spec workflow_keywords text workflow_keywords_lower) in Hw.
    now rewrite Hw.
  - intros Hni Hnw Hc. unfold _detect_prompt_type.
    rewrite (any_in_lower_false _ _ image_keywords_lower Hni).
    rewrite (any_in_lower_false _ _ workflow_keywords_lower Hnw).
    apply (any_in_lower_spec code_keywords text code_keywords_lower) in Hc.
    now rewrite Hc.
  - intros Hni Hnw Hnc. unfold _detect_prompt_type.
    rewrite (any_in_lower_false _ _ image_keywords_lower Hni).
    rewrite (any_in_lower_false _ _ workflow_keywords_lower Hnw).
    now rewrite (any_in_lower_false _ _ code_keywords_lower Hnc).
  - intros Hs. apply Hi. unfold image, mentions.
    apply Exists_exists. exists "style". split; [|exact Hs].
    apply list_elem_of_In. simpl. tauto.
Qed.

Lemma detect_prompt_type_precedence_witness :
  occurs_ci "style" "Write a STYLE checker for my workflow code" /\
  _detect_prompt_type "Write a STYLE checker for my workflow code" = IMAGE.
Proof.
  assert (H : occurs_ci "style" "Write a STYLE checker for my workflow code")
    by (exists "Write a ", "STYLE", " checker for my workflow code";
        split; reflexivity).
  split; [exact H|].
  apply (detect_prompt_type_precedence
           "Write a STYLE checker for my workflow code"). exact H.
Defined.

(** C6: [optimize] on "make my hair a bowl cut", without context, detects
    "image" and its text contains "straight, even fringe across the
    forehead". *)
Theorem optimize_bowl_cut :
  snd (optimize "make my hair a bowl cut" None) = "image" /\
  "straight, even fringe across the forehead"
    in_str fst (optimize "make my hair a bowl cut" None) = true /\
  PyStr.occurs "straight, even fringe across the forehead"
    (fst (optimize "make my hair a bowl cut" None)).
Proof.
  split; [reflexivity|].
  assert (H : "straight, even fringe across the forehead"
                in_str fst (optimize "make my hair a bowl cut" None) = true)
    by (vm_compute; reflexivity).
  split; [exact H | now apply contains_spec].
Qed.

(** C7: [optimize] on "automate the data backup process", without
    context, detects "workflow" and its text contains "rollback", "retry",
    "idempotent" and "timeout". *)
Theorem optimize_backup_process :
  snd (optimize "automate the data backup process" None) = "workflow" /\
  Forall (fun kw =>
            kw in_str fst (optimize "automate the data backup process" None) = true)
    ["rollback"; "retry"; "idempotent"; "timeout"].
Proof.
  split; [reflexivity|]. repeat constructor; vm_compute; reflexivity.
Qed.

(** ** The fallback literals *)

Section Fallbacks.

Variables no_style no_condition no_modifier : string.

Lemma assemble_with_agree (prompt_type : PromptTypeEnum)
  (template : PromptTemplate) (m c q : list string) (g : Rng) :
  m <> [] ->
  assemble_with no_style no_condition no_modifier prompt_type template m c q g
    = assemble prompt_type template m c q g.
Proof. destruct m; [congruence|]. intros _. destruct prompt_type; reflexivity. Qed.

Lemma generate_iteration_with_agree (prompt_type : PromptTypeEnum)
  (templates : list PromptTemplate) (constraint_ratio : Q) (g : Rng) :
  templates <> [] -> Forall populated templates ->
  (0 <= constraint_ratio)%Q -> (constraint_ratio <= 1)%Q ->
  generate_iteration_with no_style no_condition no_modifier
    prompt_type templates constraint_ratio g
    = generate_iteration prompt_type templates constraint_ratio g.
Proof.
  intros Hne Hpop H0 H1. revert g.
  unfold generate_iteration_with, generate_iteration.
  eapply bind_agree; [apply choice_ok, Hne|]. intros t Ht.
  rewrite Forall_forall in Hpop. destruct (Hpop t Ht) as (Hm & _ & Hq).
  eapply bind_agree;
    [apply (select_components_ok t constraint_ratio H0 H1 Hm Hq)|].
  intros [[m c] q] (_ & Hlen & _) g.
  apply assemble_with_agree, len_nonempty. lia.
Qed.

Lemma generate_with_agree (self : PromptGeneratorEngine)
  (prompt_type : PromptTypeEnum) (count : Z) (specificity : SpecificityLevel)
  (g : Rng) :
  Forall populated (templates_get self prompt_type) ->
  generate_with no_style no_condition no_modifier self prompt_type count specificity g
    = generate self prompt_type count specificity g.
Proof.
  intros Hpop. unfold generate_with, generate.
  destruct (templates_get self prompt_type) as [|t ts] eqn:E; [reflexivity|].
  cbn [truthy negb]. apply for_range_agree. intros g0.
  destruct (specificity_levels_unit specificity) as [H0 H1].
  now apply generate_iteration_with_agree.
Qed.

End Fallbacks.

(** The parametrised generator at the literals of the source is the
    generator. *)
Lemma generate_with_literals :
  generate_with "realistic" "on trigger" "function" = generate.
Proof. reflexivity. Qed.

(** The literals do matter when a formatter is handed no modifier. *)
Example fallback_shows_without_modifiers :
  run (_assemble_workflow_prompt workflow_template [] [] []) zero_rng
    = Ok "Create data ingestion workflow that on trigger".
Proof. reflexivity. Qed.

(** Outside the catalog: on an engine put together by hand, whose template
    has no modifier, one entry of none is asked for and [random.sample]
    raises.  [sample] itself clamps nothing. *)
Example oversized_sample_raises :
  num_modifiers bare_template (specificity_levels LOW) 0.5 = 1 /\
  len (modifiers bare_template) = 0 /\
  generate bare_engine CODE 1 LOW zero_rng = Raise SampleLargerThanPopulation.
Proof. repeat split; vm_compute; reflexivity. Qed.

(** ** The clamping generator *)

Section Clamping.





End Clamping.



(** [generate] reads the random source: two tapes, two results. *)
Example generate_reads_the_tape :
  run (generate engine CODE 1 LOW) zero_rng
    <> run (generate engine CODE 1 LOW) demo_rng.
Proof. vm_compute. discriminate. Qed.

(** C9: [optimize] is deterministic: two calls on the same text and
    context return the same optimized text and detected type whatever the
    states of the random source they run in, and each leaves that state as
    it found it. *)
Theorem optimize_deterministic
  (vague_prompt : string) (context : option string) (g1 g2 : Rng) :
  run (optimize_call vague_prompt context) g1
    = run (optimize_call vague_prompt context) g2 /\
  optimize_call vague_prompt context g1 = Ok (optimize vague_prompt context, g1) /\
  optimize_call vague_prompt context g2 = Ok (optimize vague_prompt context, g2).
Proof. repeat split. Qed.

(** C10: every iteration of [generate] asks for at least one modifier and
    selects at least one, for every registered prompt type, count, level
    and state of the random source; the literals "realistic", "on trigger"
    and "function" the formatters keep for an empty selection are never
    used: any other three strings in their place give the same result. *)
Theorem selected_modifiers_never_empty
  (prompt_type : PromptTypeEnum) (count : Z) (specificity : SpecificityLevel)
  (g : Rng) :
  In prompt_type [IMAGE; WORKFLOW; AUTOMATION; CODE] ->
  1 <= count <= 1000 ->
  (forall (template : PromptTemplate) (constraint_ratio u : Q),
     1 <= num_modifiers template constraint_ratio u) /\
  (forall (template : PromptTemplate) (g0 : Rng),
     template ∈ templates_get engine prompt_type ->
     exists m c q g1,
       select_components template (specificity_levels specificity) g0
         = Ok ((m, c, q), g1) /\
       1 <= len m /\ m <> []) /\
  (forall no_style no_condition no_modifier : string,
     generate_with no_style no_condition no_modifier
       engine prompt_type count specificity g
     = generate_with "realistic" "on trigger" "function"
         engine prompt_type count specificity g) /\
  generate_with "realistic" "on trigger" "function"
    engine prompt_type count specificity g
  = generate engine prompt_type count specificity g.
Proof.
  intros Hpt Hcount.
  destruct (registered_templates prompt_type Hpt) as (t & Et & Hm & Hc & Hq).
  destruct (specificity_levels_unit specificity) as [H0 H1].
  assert (Hpop : Forall populated (templates_get engine prompt_type))
    by (rewrite Et; repeat constructor; assumption).
  split; [|split; [|split]].
  - intros template constraint_ratio u. unfold num_modifiers. lia.
  - intros template g0 Ht. rewrite Et in Ht.
    apply list_elem_of_singleton in Ht as ->.
    destruct (select_components_ok t _ H0 H1 Hm Hq g0)
      as ([[m c] q] & g1 & E & _ & Hlen & _).
    exists m, c, q, g1. split; [exact E|].
    split; [lia | apply len_nonempty; lia].
  - intros no_style no_condition no_modifier.
    now rewrite !generate_with_agree.
  - reflexivity.
Qed.

Lemma selected_modifiers_never_empty_witness :
  In CODE [IMAGE; WORKFLOW; AUTOMATION; CODE] /\
  1 <= 4 <= 1000 /\
  generate_with "none" "never" "nothing" engine CODE 4 LOW demo_rng
  = generate_with "realistic" "on trigger" "function" engine CODE 4 LOW demo_rng.
Proof.
  split; [simpl; auto|]. split; [lia|].
  apply (selected_modifiers_never_empty CODE 4 LOW demo_rng); [simpl; auto | lia].
Defined.


(** * Further properties *)

(** ** [strip] *)

Section StripFacts.

Import PyStr.

Lemma is_empty_true (s : string) : is_empty s = true -> s = "".
Proof. destruct s; [reflexivity | discriminate]. Qed.

Lemma is_empty_false (s : string) : s <> "" -> is_empty s = false.
Proof. destruct s; [congruence | reflexivity]. Qed.

Lemma is_empty_append (a b : string) : b <> "" -> is_empty (a +:+ b) = false.
Proof. intros Hb. destruct a; [now apply is_empty_false | reflexivity]. Qed.

Lemma lstrip_append (a b : string) :
  lstrip (a +:+ b) = if is_empty (lstrip a) then lstrip b else lstrip a +:+ b.
Proof.
  induction a as [|c a IH]; [reflexivity|].
  rewrite append_cons. cbn [lstrip]. destruct (is_space c); [exact IH|].
  now rewrite append_cons.
Qed.

Lemma rstrip_append (a b : string) :
  rstrip b <> "" -> rstrip (a +:+ b) = a +:+ rstrip b.
Proof.
  intros Hb. induction a as [|c a IH]; [reflexivity|].
  rewrite !append_cons. cbn [rstrip]. rewrite IH.
  rewrite is_empty_append by exact Hb. now rewrite andb_false_r.
Qed.

Lemma solid_end_append (a b : string) : solid_end b -> solid_end (a +:+ b).
Proof.
  intros [Hr Hb]. split.
  - rewrite rstrip_append by congruence. now rewrite Hr.
  - intros E. apply Hb. destruct a; [exact E | discriminate].
Qed.

Lemma lstrip_first_char (s : string) (c : ascii) :
  first_char (lstrip s) = Some c -> is_space c = false.
Proof.
  induction s as [|x s IH]; [discriminate|]. cbn [lstrip].
  destruct (is_space x) eqn:E; [exact IH|]. cbn. congruence.
Qed.

Lemma rstrip_last_char (s : string) (c : ascii) :
  last_char (rstrip s) = Some c -> is_space c = false.
Proof.
  induction s as [|x s IH]; [discriminate|]. cbn [rstrip].
  destruct (rstrip s) as [|y t] eqn:E.
  - cbn [is_empty]. rewrite andb_true_r.
    destruct (is_space x) eqn:Ex; [discriminate|]. cbn. congruence.
  - cbn [is_empty]. rewrite andb_false_r. exact IH.
Qed.

Lemma rstrip_first_char (s : string) (c : ascii) :
  first_char (rstrip s) = Some c -> first_char s = Some c.
Proof.
  destruct s as [|x s]; [discriminate|]. cbn [rstrip].
  destruct (is_space x && is_empty (rstrip s)); [discriminate | exact id].
Qed.

Lemma ends_with_append (suffix a b : string) :
  ends_with suffix b -> ends_with suffix (a +:+ b).
Proof. intros [pre ->]. exists (a +:+ pre). now rewrite append_assoc. Qed.

Lemma contains_append_l (needle a b : string) :
  contains needle a = true -> contains needle (a +:+ b) = true.
Proof.
  rewrite !contains_spec. intros (pre & suf & ->).
  exists pre, (suf +:+ b). now rewrite !append_assoc.
Qed.

Lemma contains_append_r (needle a b : string) :
  contains needle b = true -> contains needle (a +:+ b) = true.
Proof.
  rewrite !contains_spec. intros (pre & suf & ->).
  exists (a +:+ pre), suf. now rewrite !append_assoc.
Qed.

(** What [strip] returns has no white space at either end. *)
Lemma strip_trimmed (s : string) : trimmed (strip s).
Proof.
  unfold strip. split; intros c H.
  - eapply lstrip_first_char, rstrip_first_char, H.
  - eapply rstrip_last_char, H.
Qed.

End StripFacts.

(** ** The optimizer *)

Section Optimizer.

Import PyStr.

Lemma _detect_prompt_type_cases (prompt : string) :
  _detect_prompt_type prompt = IMAGE \/
  _detect_prompt_type prompt = WORKFLOW \/
  _detect_prompt_type prompt = CODE.
Proof.
  unfold _detect_prompt_type.
  destruct (any_in image_keywords _); [auto|].
  destruct (any_in workflow_keywords _); [auto|].
  destruct (any_in code_keywords _); auto.
Qed.

Lemma optimize_unfold (vague_prompt : string) (context : option string) :
  optimize vague_prompt context
  = (strip (context_prefix context +:+ expansion vague_prompt),
     PromptTypeEnum_value (_detect_prompt_type vague_prompt)).
Proof.
  unfold optimize, expansion, context_prefix.
  destruct (_detect_prompt_type vague_prompt); reflexivity.
Qed.

Ltac solid_end_literal :=
  repeat apply solid_end_append; split; [reflexivity | discriminate].

(** Every expansion starts with a letter and ends with one. *)
Lemma expansion_solid (vague_prompt : string) :
  (exists c rest, expansion vague_prompt = String c rest /\ is_space c = false) /\
  solid_end (expansion vague_prompt).
Proof.
  unfold expansion.
  destruct (_detect_prompt_type_cases vague_prompt) as [-> | [-> | ->]].
  - unfold _optimize_image_prompt.
    destruct (("photo" in_str lower vague_prompt)
              || ("image" in_str lower vague_prompt)),
             (("hair" in_str lower vague_prompt)
              || ("haircut" in_str lower vague_prompt)),
             ("background" in_str lower vague_prompt); cbn [app join];
      (split; [eexists _, _; split; reflexivity | solid_end_literal]).
  - unfold _optimize_workflow_prompt; cbn [join];
      (split; [eexists _, _; split; reflexivity | solid_end_literal]).
  - unfold _optimize_code_prompt; cbn [join];
      (split; [eexists _, _; split; reflexivity | solid_end_literal]).
Qed.

(** [strip] only removes white space in front of the context: the text
    returned is the prefix, left-stripped, followed by the expansion. *)
Lemma optimize_text (vague_prompt : string) (context : option string) :
  fst (optimize vague_prompt context)
  = lstrip (context_prefix context) +:+ expansion vague_prompt.
Proof.
  rewrite optimize_unfold. cbn [fst]. unfold strip.
  destruct (expansion_solid vague_prompt) as [(c & rest & E & Hc) [Hr Hne]].
  assert (Hl : lstrip (expansion vague_prompt) = expansion vague_prompt)
    by (rewrite E; cbn [lstrip]; now rewrite Hc).
  rewrite lstrip_append, Hl.
  destruct (is_empty (lstrip (context_prefix context))) eqn:Ee.
  - apply is_empty_true in Ee. now rewrite Ee, Hr.
  - rewrite rstrip_append by congruence. now rewrite Hr.
Qed.

End Optimizer.

(** A string built by appending ends with what its tail ends with, and
    contains what one of its parts contains. *)
Ltac find_end :=
  solve [ exists ""; reflexivity | apply ends_with_append; find_end ].

Ltac find_in :=
  solve [ reflexivity
        | apply contains_append_l; reflexivity
        | apply contains_append_r; find_in ].

(** X1: for every request within the declared bounds (a vague prompt of
    1 to 500 characters, a context of at most 500), the handler of
    [POST /optimize] answers with a body, never with status 500; the body
    repeats the vague prompt, its detected type is "image", "workflow" or
    "code" (never "automation" or "analysis"), and its optimized text is
    not empty and has no white space at either end. *)
Theorem optimize_prompt_response (request : OptimizeRequest.t) :
  OptimizeRequest.valid request ->
  exists body,
    optimize_prompt request = Response body /\
    OptimizeResponse.original body = OptimizeRequest.vague_prompt request /\
    In (OptimizeResponse.detected_type body) ["image"; "workflow"; "code"] /\
    OptimizeResponse.optimized body <> "" /\
    trimmed (OptimizeResponse.optimized body).
Proof.
  intros _. destruct request as [vague context]. unfold optimize_prompt.
  cbn [OptimizeRequest.vague_prompt OptimizeRequest.context].
  pose proof (optimize_text vague context) as Ht.
  rewrite optimize_unfold in *. cbn [fst] in Ht.
  eexists. split; [reflexivity|]. cbn. split; [reflexivity|]. split; [|split].
  - destruct (_detect_prompt_type_cases vague) as [-> | [-> | ->]];
      cbn; auto.
  - rewrite Ht. destruct (expansion_solid vague) as [_ Hs].
    apply (solid_end_append (PyStr.lstrip (context_prefix context))) in Hs.
    apply Hs.
  - apply strip_trimmed.
Qed.

Lemma optimize_prompt_response_witness :
  OptimizeRequest.valid
    (OptimizeRequest.mk "make my hair a bowl cut" (Some "Keep the fringe")) /\
  exists body,
    optimize_prompt
      (OptimizeRequest.mk "make my hair a bowl cut" (Some "Keep the fringe"))
    = Response body /\
    OptimizeResponse.detected_type body = "image" /\
    OptimizeResponse.optimized body <> "".
Proof.
  assert (Hv : OptimizeRequest.valid
                 (OptimizeRequest.mk "make my hair a bowl cut"
                    (Some "Keep the fringe")))
    by (unfold OptimizeRequest.valid; simpl; lia).
  split; [exact Hv|].
  destruct (optimize_prompt_response _ Hv) as (body & E & _ & _ & Hne & _).
  exists body. split; [exact E|]. split; [|exact Hne].
  injection E as <-. reflexivity.
Defined.

(** X2: an empty context counts as no context; a context that is not
    empty is put in front of the text obtained without context, followed by
    ". ", after its leading white space is removed.  So when the context
    starts with something else than white space, the optimized text starts
    with the context and ". ". *)
Theorem optimize_context_prefix (vague_prompt : string) :
  optimize vague_prompt (Some "") = optimize vague_prompt None /\
  (forall context : string,
     context <> "" ->
     fst (optimize vague_prompt (Some context))
     = PyStr.lstrip context +:+ ". " +:+ fst (optimize vague_prompt None) /\
     snd (optimize vague_prompt (Some context))
     = snd (optimize vague_prompt None)) /\
  (forall (c : ascii) (rest : string),
     PyStr.is_space c = false ->
     starts_with (String c rest +:+ ". ")
       (fst (optimize vague_prompt (Some (String c rest))))).
Proof.
  assert (Hctx : forall context : string,
     context <> "" ->
     fst (optimize vague_prompt (Some context))
     = PyStr.lstrip context +:+ ". " +:+ fst (optimize vague_prompt None) /\
     snd (optimize vague_prompt (Some context))
     = snd (optimize vague_prompt None)).
  { intros context Hne. split; [|now rewrite !optimize_unfold].
    rewrite !optimize_text. cbn [context_prefix PyStr.lstrip].
    rewrite (is_empty_false _ Hne), append_nil_l, lstrip_append.
    destruct (PyStr.is_empty (PyStr.lstrip context)) eqn:E.
    - apply is_empty_true in E. now rewrite E.
    - now rewrite append_assoc. }
  split; [reflexivity|]. split; [exact Hctx|].
  intros c rest Hc.
  destruct (Hctx (String c rest)) as [-> _]; [discriminate|].
  cbn [PyStr.lstrip]. rewrite Hc.
  exists (fst (optimize vague_prompt None)). now rewrite append_assoc.
Qed.

Lemma optimize_context_prefix_witness :
  "Keep it under 100 lines" <> "" /\
  fst (optimize "write a function that parses JSON" (Some "Keep it under 100 lines"))
  = PyStr.lstrip "Keep it under 100 lines" +:+ ". "
    +:+ fst (optimize "write a function that parses JSON" None).
Proof.
  split; [discriminate|].
  apply (proj1 (proj2 (optimize_context_prefix "write a function that parses JSON")));
    discriminate.
Defined.

(** X3: the optimized text always ends with the fixed closing clauses of
    the detected type, whatever the text and the context; for a workflow
    prompt they bring "rollback", "retry", "idempotent" and "timeout". *)
Theorem optimize_closing_clauses (vague_prompt : string) (context : option string) :
  let text := fst (optimize vague_prompt context) in
  (_detect_prompt_type vague_prompt = IMAGE ->
   ends_with ". Do not alter facial features, expression, age, or any unspecified elements"
     text) /\
  (_detect_prompt_type vague_prompt = WORKFLOW ->
   ends_with ". Include: error handling for each step, rollback mechanism on failure, logging and audit trail, retry logic with exponential backoff. Ensure idempotent operations, timeout handling, monitoring hooks, and state persistence"
     text /\
   Forall (fun kw => kw in_str text = true)
     ["rollback"; "retry"; "idempotent"; "timeout"]) /\
  (_detect_prompt_type vague_prompt = CODE ->
   ends_with ". Must include: type hints/annotations, comprehensive error handling with specific exceptions, input validation, unit tests, docstrings for complex logic. No hardcoded values, configuration externalized, efficient algorithm choices, clear variable names, logging instrumentation"
     text).
Proof.
  cbn zeta. rewrite optimize_text. unfold expansion.
  split; [|split]; intros ->.
  - unfold _optimize_image_prompt.
    destruct (("photo" in_str PyStr.lower vague_prompt)
              || ("image" in_str PyStr.lower vague_prompt)),
             (("hair" in_str PyStr.lower vague_prompt)
              || ("haircut" in_str PyStr.lower vague_prompt)),
             ("background" in_str PyStr.lower vague_prompt);
      cbn [app PyStr.join]; find_end.
  - unfold _optimize_workflow_prompt. cbn [PyStr.join].
    split; [find_end|]. repeat constructor; find_in.
  - unfold _optimize_code_prompt. cbn [PyStr.join]. find_end.
Qed.

Lemma optimize_closing_clauses_witness :
  _detect_prompt_type "Please AUTOMATE the nightly build" = WORKFLOW /\
  Forall (fun kw =>
            kw in_str fst (optimize "Please AUTOMATE the nightly build"
                             (Some "  For the ops team")) = true)
    ["rollback"; "retry"; "idempotent"; "timeout"].
Proof.
  split; [reflexivity|].
  apply (proj1 (proj2 (optimize_closing_clauses
                         "Please AUTOMATE the nightly build"
                         (Some "  For the ops team")))).
  reflexivity.
Defined.

(** ** Case and first matches *)

Section FirstMatches.

Import PyStr.

Lemma first_in_lower (xs : list string) (a b fallback : string) :
  lower a = lower b -> first_in xs a fallback = first_in xs b fallback.
Proof.
  intros H. induction xs as [|x xs IH]; [reflexivity|].
  cbn [first_in]. now rewrite H, IH.
Qed.

Lemma lookup_style_lower (items : list (string * string)) (a b : string) :
  lower a = lower b -> lookup_style items a = lookup_style items b.
Proof.
  intros H. induction items as [|[style description] items IH]; [reflexivity|].
  cbn [lookup_style]. now rewrite H, IH.
Qed.

Lemma expansion_lower (a b : string) :
  lower a = lower b ->
  _detect_prompt_type a = _detect_prompt_type b /\ expansion a = expansion b.
Proof.
  intros H.
  assert (Hd : _detect_prompt_type a = _detect_prompt_type b)
    by (unfold _detect_prompt_type; now rewrite H).
  split; [exact Hd|]. unfold expansion. rewrite Hd.
  assert (Hi : _extract_intent a = _extract_intent b).
  { unfold _extract_intent, _find_action, _find_target.
    now rewrite (first_in_lower _ a b "create" H),
                (first_in_lower _ a b "item" H). }
  rewrite Hi.
  destruct (_detect_prompt_type_cases b) as [-> | [-> | ->]]; [|reflexivity..].
  unfold _optimize_image_prompt, _extract_hair_style.
  now rewrite H, (lookup_style_lower _ a b H).
Qed.

(** The loop of [_find_action] and [_find_target] returns the first entry
    of its list found in the prompt, whatever the case, or its fallback
    when no entry is found. *)
Lemma first_in_spec (xs : list string) (prompt fallback : string) :
  Forall (fun x => lower x = x) xs ->
  first_match xs prompt (first_in xs prompt fallback) \/
  (Forall (fun x => ~ occurs_ci x prompt) xs /\
   first_in xs prompt fallback = fallback).
Proof.
  induction xs as [|x xs IH]; intros Hlow; [right; split; [constructor | reflexivity]|].
  apply Forall_cons in Hlow as [Hx Hxs]. cbn [first_in].
  destruct (x in_str lower prompt) eqn:E.
  - left. exists [], xs. split; [reflexivity|]. split; [|constructor].
    apply occurs_ci_spec. now rewrite Hx.
  - assert (Hno : ~ occurs_ci x prompt)
      by (rewrite occurs_ci_spec, Hx; congruence).
    destruct (IH Hxs) as [(before & after & Eq & Ho & Hb) | [Hall Hf]].
    + left. exists (x :: before), after.
      split; [cbn [app]; f_equal; exact Eq|].
      split; [exact Ho | now constructor].
    + right. split; [now constructor | exact Hf].
Qed.

(** The loop over the dictionary of [_extract_hair_style]. *)
Lemma lookup_style_spec (items : list (string * string)) (prompt : string) :
  Forall (fun x => lower x = x) (map fst items) ->
  (exists style description,
     In (style, description) items /\
     first_match (map fst items) prompt style /\
     lookup_style items prompt = description) \/
  (Forall (fun x => ~ occurs_ci x prompt) (map fst items) /\
   lookup_style items prompt = lookup_style [] prompt).
Proof.
  induction items as [|[style description] items IH]; intros Hlow;
    [right; split; [constructor | reflexivity]|].
  cbn [map fst] in Hlow. apply Forall_cons in Hlow as [Hx Hxs].
  cbn [lookup_style map fst].
  destruct (style in_str lower prompt) eqn:E.
  - left. exists style, description. split; [now left|]. split; [|reflexivity].
    exists [], (map fst items). split; [reflexivity|]. split; [|constructor].
    apply occurs_ci_spec. now rewrite Hx.
  - assert (Hno : ~ occurs_ci style prompt)
      by (rewrite occurs_ci_spec, Hx; congruence).
    destruct (IH Hxs) as [(s & d & Hin & (before & after & Eq & Ho & Hb) & Hl)
                         | [Hall Hf]].
    + left. exists s, d. split; [now right|]. split; [|exact Hl].
      exists (style :: before), after.
      split; [cbn [app]; f_equal; exact Eq|].
      split; [exact Ho | now constructor].
    + right. split; [now constructor | exact Hf].
Qed.

Lemma occurs_ci_part (a b text : string) :
  occurs (lower a) (lower b) -> occurs_ci b text -> occurs_ci a text.
Proof.
  rewrite !occurs_ci_spec, !contains_spec.
  intros (p & q & E) (pre & suf & ->). rewrite E.
  exists (pre +:+ p), (q +:+ suf). now rewrite !append_assoc.
Qed.

End FirstMatches.

(** X4: [optimize] does not look at the case of the vague prompt: two
    prompts with the same lower-case form get the same optimized text and
    the same detected type. *)
Theorem optimize_ignores_case (a b : string) (context : option string) :
  PyStr.lower a = PyStr.lower b -> optimize a context = optimize b context.
Proof.
  intros H. destruct (expansion_lower a b H) as [Hd He].
  now rewrite !optimize_unfold, Hd, He.
Qed.

Lemma optimize_ignores_case_witness :
  PyStr.lower "Make My HAIR a Bowl Cut" = PyStr.lower "make my hair a bowl cut" /\
  optimize "Make My HAIR a Bowl Cut" None = optimize "make my hair a bowl cut" None.
Proof.
  split; [reflexivity|].
  apply (optimize_ignores_case "Make My HAIR a Bowl Cut" "make my hair a bowl cut").
  reflexivity.
Defined.

(** X5: the intent is a first match: the action is the first of "give",
    "make", "create", "change", "modify", "show", "generate", "build" found
    in the prompt, whatever the case, and "create" when none is found; the
    target is the first of "hair", "hairstyle", "haircut", "photo", "image",
    "code", "workflow", "background" found, and "item" when none is. *)
Theorem extract_intent_first_match (prompt : string) :
  let actions :=
    ["give"; "make"; "create"; "change"; "modify"; "show"; "generate"; "build"] in
  let targets :=
    ["hair"; "hairstyle"; "haircut"; "photo"; "image"; "code"; "workflow";
     "background"] in
  (first_match actions prompt (action (_extract_intent prompt)) \/
   Forall (fun x => ~ occurs_ci x prompt) actions /\
   action (_extract_intent prompt) = "create") /\
  (first_match targets prompt (target (_extract_intent prompt)) \/
   Forall (fun x => ~ occurs_ci x prompt) targets /\
   target (_extract_intent prompt) = "item").
Proof.
  cbn zeta. split.
  - apply (first_in_spec _ prompt "create"). repeat constructor.
  - apply (first_in_spec _ prompt "item"). repeat constructor.
Qed.

(** A text that holds a word holds every part of the word. *)
Lemma contains_part (part word text : string) :
  PyStr.occurs part word -> word in_str text = true -> part in_str text = true.
Proof.
  intros (p & q & ->). rewrite !contains_spec.
  intros (pre & suf & ->). exists (pre +:+ p), (q +:+ suf).
  now rewrite !append_assoc.
Qed.

(** The test for "haircut" adds nothing to the test for "hair". *)
Lemma hair_absorbs_haircut (text : string) :
  ("hair" in_str text) || ("haircut" in_str text) = ("hair" in_str text).
Proof.
  destruct ("hair" in_str text) eqn:Eh; [reflexivity|].
  destruct ("haircut" in_str text) eqn:Ec; [|reflexivity].
  rewrite (contains_part "hair" "haircut" text) in Eh;
    [discriminate | now exists "", "cut" | exact Ec].
Qed.

(** X6: two entries of the target list are never returned: a prompt that
    holds "hairstyle" or "haircut" holds "hair", which comes first.  For
    the same reason the test for "haircut" in [_optimize_image_prompt] adds
    nothing to the test for "hair". *)
Theorem find_target_dead_entries (prompt : string) :
  _find_target prompt <> "hairstyle" /\
  _find_target prompt <> "haircut" /\
  ("hair" in_str PyStr.lower prompt) || ("haircut" in_str PyStr.lower prompt)
  = ("hair" in_str PyStr.lower prompt).
Proof.
  split; [|split; [|apply hair_absorbs_haircut]];
    unfold _find_target; cbn [first_in];
    (destruct ("hair" in_str PyStr.lower prompt) eqn:Eh; [discriminate|]);
    (destruct ("hairstyle" in_str PyStr.lower prompt) eqn:E1;
       [rewrite (contains_part "hair" "hairstyle" _) in Eh;
          [discriminate | now exists "", "style" | exact E1]|]);
    (destruct ("haircut" in_str PyStr.lower prompt) eqn:E2;
       [rewrite (contains_part "hair" "haircut" _) in Eh;
          [discriminate | now exists "", "cut" | exact E2]|]);
    repeat (match goal with
            | |- context [if ?b then _ else _] => destruct b
            end); discriminate.
Qed.

(** X7: [_extract_hair_style] returns the description of the first of
    "bowl cut", "pixie", "bob", "mullet", "undercut", "fade", "buzz",
    "crew cut" found in the prompt, whatever the case, and the generic
    description when none is found. *)
Theorem extract_hair_style_first_match (prompt : string) :
  let cuts :=
    ["bowl cut"; "pixie"; "bob"; "mullet"; "undercut"; "fade"; "buzz";
     "crew cut"] in
  (exists style description,
     In (style, description) style_map /\
     first_match cuts prompt style /\
     _extract_hair_style prompt = description) \/
  (Forall (fun x => ~ occurs_ci x prompt) cuts /\
   _extract_hair_style prompt
   = "the requested hairstyle with appropriate length, shape, and styling details").
Proof.
  cbn zeta. apply (lookup_style_spec style_map prompt). repeat constructor.
Qed.

(** X8: the image expansion carries exactly one of its three middle
    clauses, in a fixed order of precedence: the hairstyle clause when the
    prompt holds "hair", whatever else it holds; otherwise the background
    clause when it holds "background"; otherwise the clause that names the
    target. *)
Theorem optimize_image_prompt_one_clause (vague : string) :
  let text := _optimize_image_prompt vague (_extract_intent vague) in
  let hair := "Change only their hairstyle to " in_str text in
  let background := "Change only the background" in_str text in
  let other := "Modify the " in_str text in
  (occurs_ci "hair" vague ->
   hair = true /\ background = false /\ other = false) /\
  (~ occurs_ci "hair" vague -> occurs_ci "background" vague ->
   hair = false /\ background = true /\ other = false) /\
  (~ occurs_ci "hair" vague -> ~ occurs_ci "background" vague ->
   hair = false /\ background = false /\ other = true).
Proof.
  cbn zeta. rewrite !occurs_ci_spec.
  change (PyStr.lower "hair") with "hair".
  change (PyStr.lower "background") with "background".
  pose proof (hair_absorbs_haircut (PyStr.lower vague)) as Hh.
  unfold _optimize_image_prompt, _extract_intent, _find_target,
    _extract_hair_style, style_map.
  cbn [first_in lookup_style target]. rewrite Hh.
  split; [|split].
  - intros ->.
    destruct (("photo" in_str PyStr.lower vague)
              || ("image" in_str PyStr.lower vague));
      repeat (match goal with
              | |- context [if ?b then _ else _] => destruct b
              end); vm_compute; auto.
  - intros Hn ->. apply not_true_is_false in Hn. rewrite Hn.
    destruct (("photo" in_str PyStr.lower vague)
              || ("image" in_str PyStr.lower vague)); vm_compute; auto.
  - intros Hn Hb. apply not_true_is_false in Hn, Hb. rewrite Hn, Hb.
    destruct (("photo" in_str PyStr.lower vague)
              || ("image" in_str PyStr.lower vague));
      repeat (match goal with
              | |- context [if ?b then _ else _] => destruct b
              end); vm_compute; auto.
Qed.

Lemma optimize_image_prompt_one_clause_witness :
  occurs_ci "hair" "new HAIR and a new background" /\
  "Change only the background"
    in_str _optimize_image_prompt "new HAIR and a new background"
             (_extract_intent "new HAIR and a new background") = false.
Proof.
  assert (H : occurs_ci "hair" "new HAIR and a new background")
    by (exists "new ", "HAIR", " and a new background"; split; reflexivity).
  split; [exact H|].
  apply (proj1 (optimize_image_prompt_one_clause "new HAIR and a new background")).
  exact H.
Defined.

(** ** Sampling without replacement *)

Section Sampling.

Lemma succeeds_conj {A} (m : M A) (P Q : A -> Prop) :
  succeeds m P -> succeeds m Q -> succeeds m (fun a => P a /\ Q a).
Proof.
  intros HP HQ g. destruct (HP g) as (a & g1 & E & Ha).
  destruct (HQ g) as (a' & g2 & E' & Ha'). rewrite E in E'.
  injection E' as <- <-. now exists a, g1.
Qed.

(** The pool after one step: the cell taken is gone, the others stay,
    each once. *)
Lemma pool_step {A} (pool : list A) (j : nat) (d : A) :
  NoDup pool -> (j < length pool)%nat ->
  let n' := pred (length pool) in
  let pool' := take n' (<[j := nth n' pool d]> pool) in
  NoDup pool' /\ nth j pool d ∉ pool'.
Proof.
  intros Hnd Hj n' pool'.
  assert (Hlast : pool !! n' = Some (nth n' pool d)).
  { destruct (nth_lookup_or_length pool n' d) as [H|H]; [exact H|].
    subst n'. lia. }
  assert (Hjth : pool !! j = Some (nth j pool d)).
  { destruct (nth_lookup_or_length pool j d) as [H|H]; [exact H | lia]. }
  assert (Hcell : forall i z, pool' !! i = Some z ->
            (i < n')%nat /\
            (i = j /\ pool !! n' = Some z \/ i <> j /\ pool !! i = Some z)).
  { intros i z H. subst pool'. apply lookup_take_Some in H as [H Hi].
    split; [exact Hi|].
    apply list_lookup_insert_Some in H as [(<- & <- & _) | [Hne H]]; auto. }
  rewrite NoDup_alt in Hnd. split.
  - apply NoDup_alt. intros i1 i2 z H1 H2.
    apply Hcell in H1 as [Hi1 [[-> H1] | [Hn1 H1]]];
      apply Hcell in H2 as [Hi2 [[-> H2] | [Hn2 H2]]].
    + reflexivity.
    + pose proof (Hnd _ _ _ H1 H2). lia.
    + pose proof (Hnd _ _ _ H1 H2). lia.
    + exact (Hnd _ _ _ H1 H2).
  - intros Hin. apply list_elem_of_lookup in Hin as [i Hi].
    apply Hcell in Hi as [Hi [[-> H] | [Hn H]]].
    + pose proof (Hnd _ _ _ H Hjth). lia.
    + pose proof (Hnd _ _ _ H Hjth). lia.
Qed.

Lemma sample_pool_NoDup {A} (k : nat) (pool : list A) :
  NoDup pool -> (k <= length pool)%nat ->
  succeeds (sample_pool k pool) (fun xs => NoDup xs /\ xs ⊆ pool).
Proof.
  revert pool. induction k as [|k IH]; intros pool Hnd Hk.
  - apply succeeds_ret. split; [constructor | apply list_subseteq_nil].
  - destruct pool as [|x pool]; [simpl in Hk; lia|].
    cbn [sample_pool]. set (p := x :: pool) in *.
    eapply succeeds_bind; [apply randbelow_ok; subst p; simpl; lia|].
    intros j Hj. destruct (pool_step p j x Hnd Hj) as [Hnd' Hnotin].
    assert (Hsub : take (pred (length p)) (<[j := nth (pred (length p)) p x]> p) ⊆ p).
    { intros y Hy. apply list_elem_of_lookup in Hy as [i Hy].
      apply lookup_take_Some in Hy as [Hy _].
      apply list_lookup_insert_Some in Hy as [(_ & <- & _) | [_ Hy]].
      - apply list_elem_of_In, nth_In. subst p; simpl; lia.
      - eapply list_elem_of_lookup_2, Hy. }
    eapply succeeds_bind.
    + apply IH; [exact Hnd'|].
      rewrite length_take, length_insert. subst p; simpl in *; lia.
    + intros rest [Hr Hs]. apply succeeds_ret. split.
      * apply NoDup_cons. split; [|exact Hr].
        intros Hin. apply Hnotin, Hs, Hin.
      * intros y Hy. apply elem_of_cons in Hy as [->|Hy].
        -- apply list_elem_of_In, nth_In, Hj.
        -- apply Hsub, Hs, Hy.
Qed.

(** From a population without duplicates [sample] returns none. *)
Lemma sample_NoDup {A} (population : list A) (k : Z) :
  NoDup population -> 0 <= k <= len population ->
  succeeds (sample population k) (fun xs => NoDup xs).
Proof.
  intros Hnd Hk. unfold sample, len in *.
  replace ((0 <=? k) && (k <=? Z.of_nat (length population))) with true
    by (symmetry; apply andb_true_iff; split; apply Z.leb_le; lia).
  eapply succeeds_weaken; [apply sample_pool_NoDup; [exact Hnd | lia]|].
  now intros xs [H _].
Qed.

Lemma select_components_NoDup (template : PromptTemplate) (constraint_ratio : Q) :
  (0 <= constraint_ratio)%Q -> (constraint_ratio <= 1)%Q ->
  populated template ->
  NoDup (modifiers template) -> NoDup (constraints template) ->
  NoDup (quality_tokens template) ->
  succeeds (select_components template constraint_ratio)
    (fun '(m, c, q) => NoDup m /\ NoDup c /\ NoDup q).
Proof.
  intros H0 H1 (Hm & _ & Hq) Nm Nc Nq. unfold select_components.
  eapply succeeds_bind; [apply uniform_ok; unfold Qle; simpl; lia|].
  intros u [Hu0 Hu1].
  assert (Hu0' : (0 <= u)%Q)
    by (eapply Qle_trans; [|exact Hu0]; unfold Qle; simpl; lia).
  assert (Hu1' : (u <= 1)%Q)
    by (eapply Qle_trans; [exact Hu1|]; unfold Qle; simpl; lia).
  pose proof (num_modifiers_bounds template constraint_ratio H0 H1 u Hm Hu0' Hu1').
  eapply succeeds_bind; [apply sample_NoDup; [exact Nm | lia]|].
  intros m Hnm.
  pose proof (num_constraints_bounds template constraint_ratio H0 H1).
  eapply succeeds_bind with (P := fun c => NoDup c).
  { destruct (0 <? num_constraints template constraint_ratio).
    - apply sample_NoDup; [exact Nc | lia].
    - apply succeeds_ret. constructor. }
  intros c Hnc.
  eapply succeeds_bind; [apply random_ok|]. intros r _.
  pose proof (num_quality_bounds template Hq).
  eapply succeeds_bind with (P := fun q => NoDup q).
  { destruct (float_lt r constraint_ratio).
    - apply sample_NoDup; [exact Nq | lia].
    - apply succeeds_ret. constructor. }
  intros q Hnq. now apply succeeds_ret.
Qed.

Lemma catalog_NoDup (t : PromptTemplate) :
  In t [image_template; workflow_template; automation_template; code_template] ->
  NoDup (modifiers t) /\ NoDup (constraints t) /\ NoDup (quality_tokens t).
Proof.
  intros [<- | [<- | [<- | [<- | []]]]]; repeat split;
    apply (bool_decide_unpack _); vm_compute; exact I.
Qed.

Lemma registered_template_in_catalog (prompt_type : PromptTypeEnum)
  (t : PromptTemplate) :
  In prompt_type registered -> t ∈ templates_get engine prompt_type ->
  In t [image_template; workflow_template; automation_template; code_template] /\
  populated t.
Proof.
  intros [<- | [<- | [<- | [<- | []]]]] Ht;
    apply list_elem_of_singleton in Ht as ->;
    (split; [simpl; tauto | repeat split; discriminate]).
Qed.

End Sampling.

(** X9: in every iteration of [generate] the modifiers, the constraints
    and the quality tokens selected are entries of the template's lists and
    hold no entry twice, for every registered prompt type, level and state
    of the random source. *)
Theorem selections_without_duplicates
  (prompt_type : PromptTypeEnum) (specificity : SpecificityLevel)
  (template : PromptTemplate) (g : Rng) :
  In prompt_type [IMAGE; WORKFLOW; AUTOMATION; CODE] ->
  template ∈ templates_get engine prompt_type ->
  exists m c q g',
    select_components template (specificity_levels specificity) g
      = Ok ((m, c, q), g') /\
    NoDup m /\ NoDup c /\ NoDup q /\
    m ⊆ modifiers template /\ c ⊆ constraints template /\
    q ⊆ quality_tokens template.
Proof.
  intros Hpt Ht.
  destruct (registered_template_in_catalog _ _ Hpt Ht) as [Hin Hpop].
  destruct (catalog_NoDup _ Hin) as (Nm & Nc & Nq).
  destruct (specificity_levels_unit specificity) as [H0 H1].
  pose proof Hpop as (Hm & _ & Hq).
  destruct (succeeds_conj _ _ _
              (select_components_ok template _ H0 H1 Hm Hq)
              (select_components_NoDup template _ H0 H1 Hpop Nm Nc Nq) g)
    as ([[m c] q] & g' & E & Hsel & Hm' & Hc' & Hq').
  destruct Hsel as (_ & _ & Sm & _ & Sc & _ & Sq & _).
  exists m, c, q, g'. repeat split; assumption.
Qed.

Lemma selections_without_duplicates_witness :
  In IMAGE [IMAGE; WORKFLOW; AUTOMATION; CODE] /\
  image_template ∈ templates_get engine IMAGE /\
  exists m c q g',
    select_components image_template (specificity_levels HIGH) demo_rng
      = Ok ((m, c, q), g') /\
    NoDup m /\ NoDup c /\ NoDup q /\
    m ⊆ modifiers image_template /\ c ⊆ constraints image_template /\
    q ⊆ quality_tokens image_template.
Proof.
  assert (H : image_template ∈ templates_get engine IMAGE)
    by (apply list_elem_of_singleton; reflexivity).
  split; [simpl; auto|]. split; [exact H|].
  apply (selections_without_duplicates IMAGE HIGH image_template demo_rng);
    [simpl; auto | exact H].
Defined.

(** ** Sample sizes by level *)

Section SizesByLevel.

Lemma py_int_below (x : Q) (n : Z) :
  (0 <= x)%Q -> (x < inject_Z n)%Q -> 0 <= py_int x < n.
Proof.
  destruct x as [p q]. unfold Qle, Qlt, py_int; cbn [Qnum Qden inject_Z].
  intros H0 Hn. rewrite Z.quot_div_nonneg by lia. split.
  - apply Z.div_pos; lia.
  - apply Z.div_lt_upper_bound; lia.
Qed.

Lemma num_modifiers_low (t : PromptTemplate) (u : Q) :
  In t [image_template; workflow_template; automation_template; code_template] ->
  (0.3 <= u)%Q -> (u <= 0.7)%Q ->
  num_modifiers t (specificity_levels LOW) u = 1.
Proof.
  intros Ht Hu0 Hu1. unfold num_modifiers.
  assert (0 <= py_int (inject_Z (len (modifiers t)) * specificity_levels LOW * u) < 2);
    [|lia].
  apply py_int_below;
    destruct Ht as [<- | [<- | [<- | [<- | []]]]];
    cbn [specificity_levels];
    repeat match goal with
           | |- context [inject_Z ?z] =>
               let v := eval vm_compute in (inject_Z z) in
               change (inject_Z z) with v
           end;
    lra.
Qed.

Lemma sample_sizes_by_level_aux (t : PromptTemplate) :
  In t [image_template; workflow_template; automation_template; code_template] ->
  (forall u : Q, (0.3 <= u)%Q -> (u <= 0.7)%Q ->
     num_modifiers t (specificity_levels LOW) u = 1) /\
  map (fun s => num_constraints t (specificity_levels s))
    [LOW; MEDIUM; HIGH; EXTREME] = [1; 4; 6; 8] /\
  len (constraints t) = 8.
Proof.
  intros Ht. split; [intros u; now apply num_modifiers_low|].
  destruct Ht as [<- | [<- | [<- | [<- | []]]]]; split; reflexivity.
Qed.

End SizesByLevel.

(** ** The shape of the prompts *)

Section Shapes.








End Shapes.





(** X13: the sample sizes by level, for every template of the catalog: at
    "low" one modifier is asked for, whatever the draw; the number of
    constraints asked for is 1, 4, 6 and 8 (all of them) at "low",
    "medium", "high" and "extreme"; the number of quality tokens is 4 for
    the image template and 2 for the others. *)
Theorem sample_sizes_by_level (t : PromptTemplate) :
  In t [image_template; workflow_template; automation_template; code_template] ->
  (forall u : Q, (0.3 <= u)%Q -> (u <= 0.7)%Q ->
     num_modifiers t (specificity_levels LOW) u = 1) /\
  map (fun s => num_constraints t (specificity_levels s))
    [LOW; MEDIUM; HIGH; EXTREME] = [1; 4; 6; 8] /\
  len (constraints t) = 8 /\
  map num_quality
    [image_template; workflow_template; automation_template; code_template]
  = [4; 2; 2; 2].
Proof.
  intros Ht. destruct (sample_sizes_by_level_aux t Ht) as (H1 & H2 & H3).
  repeat split; assumption.
Qed.

Lemma sample_sizes_by_level_witness :
  In code_template
    [image_template; workflow_template; automation_template; code_template] /\
  map (fun s => num_constraints code_template (specificity_levels s))
    [LOW; MEDIUM; HIGH; EXTREME] = [1; 4; 6; 8].
Proof.
  split; [simpl; tauto|].
  apply (sample_sizes_by_level code_template). simpl; tauto.
Defined.

(** X14: at "low" every iteration selects exactly one modifier and one
    constraint; at "extreme" it selects all the constraints of the
    template, in some order, and the full number of quality tokens. *)
Theorem selections_at_low_and_extreme
  (prompt_type : PromptTypeEnum) (template : PromptTemplate) (g : Rng) :
  In prompt_type [IMAGE; WORKFLOW; AUTOMATION; CODE] ->
  template ∈ templates_get engine prompt_type ->
  (exists m c q g',
     select_components template (specificity_levels LOW) g = Ok ((m, c, q), g') /\
     len m = 1 /\ len c = 1) /\
  (exists m c q g',
     select_components template (specificity_levels EXTREME) g
       = Ok ((m, c, q), g') /\
     c ≡ₚ constraints template /\ len q = num_quality template).
Proof.
  intros Hpt Ht.
  destruct (registered_template_in_catalog _ _ Hpt Ht) as [Hin Hpop].
  destruct (catalog_NoDup _ Hin) as (Nm & Nc & Nq).
  destruct (sample_sizes_by_level_aux template Hin) as (Hlow & Hcs & Hlen).
  pose proof Hpop as (Hm & _ & Hq).
  split.
  - destruct (specificity_levels_unit LOW) as [H0 H1].
    destruct (select_components_ok template _ H0 H1 Hm Hq g)
      as ([[m c] q] & g' & E & (u & Hu0 & Hu1 & Hlm) & _ & _ & Hlc & _).
    exists m, c, q, g'. split; [exact E|].
    rewrite Hlm, Hlc. split; [now apply Hlow|].
    injection Hcs as E1 _ _ _. exact E1.
  - destruct (specificity_levels_unit EXTREME) as [H0 H1].
    destruct (succeeds_conj _ _ _
                (select_components_ok template _ H0 H1 Hm Hq)
                (select_components_NoDup template _ H0 H1 Hpop Nm Nc Nq) g)
      as ([[m c] q] & g' & E & Hsel & _ & Hc' & _).
    destruct Hsel as (_ & _ & _ & Hlc & Sc & _ & _ & Hfull).
    exists m, c, q, g'. split; [exact E|]. split.
    + apply submseteq_length_Permutation.
      * now apply NoDup_submseteq.
      * injection Hcs as _ _ _ E8.
        change (len c = num_constraints template 1.0) in Hlc.
        unfold len in *. lia.
    + apply Hfull. unfold Qle; simpl; lia.
Qed.

Lemma selections_at_low_and_extreme_witness :
  In CODE [IMAGE; WORKFLOW; AUTOMATION; CODE] /\
  code_template ∈ templates_get engine CODE /\
  exists m c q g',
    select_components code_template (specificity_levels EXTREME) zero_rng
      = Ok ((m, c, q), g') /\
    c ≡ₚ constraints code_template /\ len q = num_quality code_template.
Proof.
  assert (H : code_template ∈ templates_get engine CODE)
    by (apply list_elem_of_singleton; reflexivity).
  split; [simpl; auto|]. split; [exact H|].
  apply (selections_at_low_and_extreme CODE code_template zero_rng);
    [simpl; auto | exact H].
Defined.

(** ** Counts and the HTTP layer *)

(** X15: [generate] accepts any count for a registered prompt type: it
    returns [max(0, count)] prompts, and for a count of zero or less the
    empty list, with no draw taken from the random source. *)
Theorem generate_any_count
  (prompt_type : PromptTypeEnum) (count : Z) (specificity : SpecificityLevel)
  (g : Rng) :
  In prompt_type [IMAGE; WORKFLOW; AUTOMATION; CODE] ->
  (exists prompts g',
     generate engine prompt_type count specificity g = Ok (prompts, g') /\
     len prompts = Z.max 0 count) /\
  (count <= 0 -> generate engine prompt_type count specificity g = Ok ([], g)).
Proof.
  intros Hpt.
  destruct (registered_templates prompt_type Hpt) as (t & Et & Hpop).
  split.
  - destruct (generate_ok engine prompt_type count specificity) with (g := g)
      as (prompts & g' & E & Hl & _).
    + rewrite Et. discriminate.
    + rewrite Et. repeat constructor; apply Hpop.
    + exists prompts, g'. split; [exact E | unfold len; lia].
  - intros Hc. unfold generate. rewrite Et. cbn [truthy negb].
    replace (Z.to_nat count) with 0%nat by lia. reflexivity.
Qed.

Lemma generate_any_count_witness :
  In WORKFLOW [IMAGE; WORKFLOW; AUTOMATION; CODE] /\
  -3 <= 0 /\
  generate engine WORKFLOW (-3) HIGH demo_rng = Ok ([], demo_rng).
Proof.
  split; [simpl; auto|]. split; [lia|].
  apply (generate_any_count WORKFLOW (-3) HIGH demo_rng); [simpl; auto | lia].
Defined.

(** X16: for a request within the declared bounds and a registered prompt
    type, [POST /generate] answers with a body whose [count] is the count
    asked for and the number of prompts returned, none of them empty, and
    whose [prompt_type] and [specificity] repeat the values of the
    request. *)
Theorem generate_prompts_response (request : GenerateRequest.t) (g : Rng) :
  GenerateRequest.valid request ->
  In (GenerateRequest.prompt_type request) [IMAGE; WORKFLOW; AUTOMATION; CODE] ->
  exists body,
    generate_prompts request g = Response body /\
    GenerateResponse.count body = GenerateRequest.count request /\
    len (GenerateResponse.prompts body) = GenerateRequest.count request /\
    Forall (fun prompt => prompt <> "") (GenerateResponse.prompts body) /\
    GenerateResponse.prompt_type body
      = PromptTypeEnum_value (GenerateRequest.prompt_type request) /\
    GenerateResponse.specificity body
      = SpecificityLevel_value (GenerateRequest.specificity request).
Proof.
  intros Hv Hpt. unfold GenerateRequest.valid in Hv.
  destruct (registered_templates _ Hpt) as (t & Et & Hpop).
  destruct (generate_ok engine (GenerateRequest.prompt_type request)
              (GenerateRequest.count request)
              (GenerateRequest.specificity request)) with (g := g)
    as (prompts & g' & E & Hl & Hall).
  - rewrite Et. discriminate.
  - rewrite Et. repeat constructor; apply Hpop.
  - unfold generate_prompts. rewrite E. eexists. split; [reflexivity|].
    cbn. assert (len prompts = GenerateRequest.count request)
      by (unfold len; lia).
    repeat split; auto.
    eapply Forall_impl; [exact Hall|]. now intros p [Hp _].
Qed.

Lemma generate_prompts_response_witness :
  GenerateRequest.valid (GenerateRequest.mk IMAGE 10 MEDIUM) /\
  In IMAGE [IMAGE; WORKFLOW; AUTOMATION; CODE] /\
  exists body,
    generate_prompts (GenerateRequest.mk IMAGE 10 MEDIUM) demo_rng
      = Response body /\
    GenerateResponse.count body = 10.
Proof.
  assert (Hv : GenerateRequest.valid (GenerateRequest.mk IMAGE 10 MEDIUM))
    by (unfold GenerateRequest.valid; simpl; lia).
  split; [exact Hv|]. split; [simpl; auto|].
  destruct (generate_prompts_response
              (GenerateRequest.mk IMAGE 10 MEDIUM) demo_rng Hv)
    as (body & E & Hc & _); [simpl; auto|].
  exists body. split; [exact E | exact Hc].
Defined.

(** X17: [GET /types] lists "analysis" among the types, and for requests
    within the declared bounds (a count of 1 to 1000) the handler of
    [POST /generate] answers with status 500 exactly for that type: for
    every such count, every level and every state of the random source a
    request for "analysis" gets the exception, and a request for any other
    type gets a body. *)
Theorem generate_prompts_fails_for_analysis_only :
  In "analysis" (fst get_prompt_types) /\
  (forall (request : GenerateRequest.t) (g : Rng),
     GenerateRequest.valid request ->
     GenerateRequest.prompt_type request = ANALYSIS ->
     generate_prompts request g = HTTPException 500 (NoTemplates ANALYSIS)) /\
  (forall (request : GenerateRequest.t) (g : Rng),
     GenerateRequest.valid request ->
     GenerateRequest.prompt_type request <> ANALYSIS ->
     exists body, generate_prompts request g = Response body).
Proof.
  split; [simpl; tauto|]. split.
  - intros [pt count sp] g _ E. cbn in E. subst pt. reflexivity.
  - intros [pt count sp] g _ Hne. cbn in Hne.
    assert (Hpt : In pt registered) by (destruct pt; simpl; tauto).
    destruct (registered_templates pt Hpt) as (t & Et & Hpop).
    destruct (generate_ok engine pt count sp) with (g := g)
      as (prompts & g' & E & _).
    + rewrite Et. discriminate.
    + rewrite Et. repeat constructor; apply Hpop.
    + unfold generate_prompts. cbn. rewrite E. eexists. reflexivity.
Qed.

Lemma generate_prompts_fails_for_analysis_only_witness :
  GenerateRequest.valid (GenerateRequest.mk ANALYSIS 10 MEDIUM) /\
  GenerateRequest.prompt_type (GenerateRequest.mk ANALYSIS 10 MEDIUM) = ANALYSIS /\
  generate_prompts (GenerateRequest.mk ANALYSIS 10 MEDIUM) demo_rng
    = HTTPException 500 (NoTemplates ANALYSIS).
Proof.
  assert (Hv : GenerateRequest.valid (GenerateRequest.mk ANALYSIS 10 MEDIUM))
    by (unfold GenerateRequest.valid; simpl; lia).
  split; [exact Hv|]. split; [reflexivity|].
  apply (proj1 (proj2 generate_prompts_fails_for_analysis_only));
    [exact Hv | reflexivity].
Defined.

(** X18: the image expansion opens with the clause that keeps the face,
    identity and proportions of the uploaded photo exactly when the prompt
    holds "photo" or "image", whatever the case; otherwise the clause is
    nowhere in it. *)
Theorem optimize_image_prompt_photo_clause (vague : string) :
  let text := _optimize_image_prompt vague (_extract_intent vague) in
  (mentions ["photo"; "image"] vague ->
   starts_with "Using the uploaded photo, keep the person or subject's face, identity, and proportions exactly the same. "
     text) /\
  (~ mentions ["photo"; "image"] vague ->
   "Using the uploaded photo" in_str text = false).
Proof.
  cbn zeta.
  assert (Hm : mentions ["photo"; "image"] vague <->
               ("photo" in_str PyStr.lower vague)
               || ("image" in_str PyStr.lower vague) = true).
  { rewrite <- (any_in_lower_spec ["photo"; "image"] vague)
      by (repeat constructor).
    unfold PyStr.any_in. cbn [existsb]. now rewrite orb_false_r. }
  pose proof (hair_absorbs_haircut (PyStr.lower vague)) as Hh.
  unfold _optimize_image_prompt, _extract_intent, _find_target,
    _extract_hair_style, style_map.
  cbn [first_in lookup_style target]. rewrite Hh.
  split.
  - intros H. apply Hm in H. rewrite H.
    destruct ("hair" in_str PyStr.lower vague);
      [|destruct ("background" in_str PyStr.lower vague)];
      cbn [app PyStr.join]; eexists; reflexivity.
  - intros H. rewrite Hm in H. apply not_true_is_false in H. rewrite H.
    repeat (match goal with
            | |- context [if ?b then _ else _] => destruct b
            end); vm_compute; reflexivity.
Qed.

Lemma optimize_image_prompt_photo_clause_witness :
  mentions ["photo"; "image"] "fix this PHOTO" /\
  starts_with "Using the uploaded photo, keep the person or subject's face, identity, and proportions exactly the same. "
    (_optimize_image_prompt "fix this PHOTO" (_extract_intent "fix this PHOTO")).
Proof.
  assert (H : mentions ["photo"; "image"] "fix this PHOTO").
  { apply Exists_cons_hd. exists "fix this ", "PHOTO", "". split; reflexivity. }
  split; [exact H|].
  apply (proj1 (optimize_image_prompt_photo_clause "fix this PHOTO")). exact H.
Defined.

(** ** The default of the classifier *)

Lemma any_in_false_each (kws : list string) (text : string) :
  PyStr.any_in kws text = false -> Forall (fun kw => kw in_str text = false) kws.
Proof.
  unfold PyStr.any_in. induction kws as [|kw kws IH]; [constructor|].
  cbn [existsb]. intros H. apply orb_false_elim in H as [H1 H2].
  constructor; auto.
Qed.

(** X19: a prompt that holds none of the keywords of the three lists is
    taken for an image prompt and, without context, gets one fixed text,
    which asks to modify the "item" and not to alter facial features. *)
Theorem optimize_without_keyword (vague_prompt : string) :
  ~ mentions image_keywords vague_prompt ->
  ~ mentions workflow_keywords vague_prompt ->
  ~ mentions code_keywords vague_prompt ->
  optimize vague_prompt None
  = ("Modify the item while preserving all other aspects. Do not alter facial features, expression, age, or any unspecified elements",
     "image").
Proof.
  intros Hi Hw Hc.
  apply (any_in_lower_false _ _ image_keywords_lower) in Hi.
  apply (any_in_lower_false _ _ workflow_keywords_lower) in Hw.
  apply (any_in_lower_false _ _ code_keywords_lower) in Hc.
  assert (Hd : _detect_prompt_type vague_prompt = IMAGE)
    by (unfold _detect_prompt_type; now rewrite Hi, Hw, Hc).
  apply any_in_false_each in Hi, Hw, Hc.
  unfold image_keywords in Hi. unfold workflow_keywords in Hw.
  unfold code_keywords in Hc.
  repeat match goal with
         | H : Forall _ (_ :: _) |- _ => apply Forall_cons in H as [? H]
         end.
  rewrite optimize_unfold, Hd. f_equal.
  unfold expansion. rewrite Hd.
  unfold _optimize_image_prompt, _extract_intent, _find_target.
  cbn [first_in target].
  rewrite hair_absorbs_haircut.
  assert (Hhair : "hair" in_str PyStr.lower vague_prompt = false) by assumption.
  repeat match goal with
         | H : ?kw in_str PyStr.lower vague_prompt = false
           |- context [?kw in_str PyStr.lower vague_prompt] => rewrite H
         end.
  destruct ("hairstyle" in_str PyStr.lower vague_prompt) eqn:E1;
    [rewrite (contains_part "hair" "hairstyle" _) in Hhair;
       [discriminate | now exists "", "style" | exact E1]|].
  destruct ("haircut" in_str PyStr.lower vague_prompt) eqn:E2;
    [rewrite (contains_part "hair" "haircut" _) in Hhair;
       [discriminate | now exists "", "cut" | exact E2]|].
  reflexivity.
Qed.

Lemma optimize_without_keyword_witness :
  ~ mentions image_keywords "hello there" /\
  ~ mentions workflow_keywords "hello there" /\
  ~ mentions code_keywords "hello there" /\
  optimize "hello there" None
  = ("Modify the item while preserving all other aspects. Do not alter facial features, expression, age, or any unspecified elements",
     "image").
Proof.
  assert (Hi : ~ mentions image_keywords "hello there")
    by (rewrite <- (any_in_lower_spec _ _ image_keywords_lower); discriminate).
  assert (Hw : ~ mentions workflow_keywords "hello there")
    by (rewrite <- (any_in_lower_spec _ _ workflow_keywords_lower); discriminate).
  assert (Hc : ~ mentions code_keywords "hello there")
    by (rewrite <- (any_in_lower_spec _ _ code_keywords_lower); discriminate).
  split; [exact Hi|]. split; [exact Hw|]. split; [exact Hc|].
  exact (optimize_without_keyword "hello there" Hi Hw Hc).
Defined.
